(** * npm-audit: the audit endpoint and the report exports

    A shallow embedding of
      - [src/pages/api/npm-audit.ts]: the HTTP handler that writes a synthetic
        manifest into a scratch directory, shells out to npm and normalises
        the audit report (the file holds three variants of the handler, they
        are embedded as [V1], [V2] and [V3] in file order);
      - [src/components/NpmAuditDashboard.tsx]: the Markdown and PDF exports,
        the CVSS column of the table, and [performAudit], which talks to the
        endpoint.

    JavaScript values are an inductive type, objects are association lists in
    enumeration order, the file system is a finite map, and the handler runs
    in a small state monad with exceptions and early [return].  What the
    repository does not define is a parameter: npm and the operating system
    ([env]), the browser ([Client.browser]), and [JSON.parse] in both. *)

From Stdlib Require Import Ascii.
From stdpp Require Import gmap strings list fin_maps pretty.

Local Open Scope string_scope.
Local Open Scope Z_scope.

(** ** Characters that cannot be typed inside a string literal *)

Definition dquote : string := String "034"%char "".
Definition newline : string := String "010"%char "".

(** ** Numbers

    The numbers that reach this code come out of [JSON.parse]: finite decimal
    literals.  A number is kept as [mantissa / 10 ^ decimals].  Inside
    [1e-6 <= |x| < 1e21] and up to 15 significant digits [num_to_string] is the
    text [Number.prototype.toString] gives. *)

Record number := Num { mantissa : Z; decimals : nat }.

Definition num_zero : number := Num 0 0.

(** ToBoolean on a number: only zero is falsy (NaN does not occur). *)
Definition num_truthy (n : number) : bool := negb (mantissa n =? 0).

(** Drop the trailing zeros of the fractional part. *)
Fixpoint strip_zeros (m : Z) (k : nat) : Z * nat :=
  match k with
  | O => (m, O)
  | S k' => if m mod 10 =? 0 then strip_zeros (m / 10) k' else (m, k)
  end.

(** [n] as exactly [k] decimal digits, zero padded on the left. *)
Fixpoint digits_padded (n : Z) (k : nat) : string :=
  match k with
  | O => ""
  | S k' => digits_padded (n / 10) k' +:+ pretty (n mod 10)
  end.

Definition num_to_string (n : number) : string :=
  let '(m, k) := strip_zeros (Z.abs (mantissa n)) (decimals n) in
  let p := 10 ^ Z.of_nat k in
  (if mantissa n <? 0 then "-" else "")
    +:+ pretty (m / p)
    +:+ (match k with O => "" | _ => "." +:+ digits_padded (m mod p) k end).

(** ** JavaScript values *)

#[local] Set Warnings "-register-all".

Inductive value :=
| VUndefined
| VNull
| VBool (b : bool)
| VNum (n : number)
| VStr (s : string)
| VArr (items : list value)
| VObj (props : list (string * value)).

Inductive js_type := TUndefined | TObject | TBoolean | TNumber | TString.

#[global] Instance js_type_eq_dec : EqDecision js_type.
Proof. solve_decision. Defined.

(** [typeof v]: null and arrays are of type object. *)
Definition typeof (v : value) : js_type :=
  match v with
  | VUndefined => TUndefined
  | VNull | VArr _ | VObj _ => TObject
  | VBool _ => TBoolean
  | VNum _ => TNumber
  | VStr _ => TString
  end.

Definition is_object (v : value) : bool := bool_decide (typeof v = TObject).

(** ToBoolean. *)
Definition truthy (v : value) : bool :=
  match v with
  | VUndefined | VNull => false
  | VBool b => b
  | VNum n => num_truthy n
  | VStr s => negb (String.eqb s "")
  | VArr _ | VObj _ => true
  end.

(** [a || b] *)
Definition or_else (a b : value) : value := if truthy a then a else b.

Definition isArray (v : value) : bool :=
  match v with VArr _ => true | _ => false end.

Definition join (sep : string) (l : list string) : string := String.concat sep l.

(** The text ToString gives for a value that has one (see [ToString]
    below). *)
Fixpoint to_string (v : value) : string :=
  match v with
  | VUndefined => "undefined"
  | VNull => "null"
  | VBool true => "true"
  | VBool false => "false"
  | VNum n => num_to_string n
  | VStr s => s
  | VArr items =>
      join "," ((fix each (l : list value) : list string :=
                   match l with
                   | [] => []
                   | (VUndefined | VNull) :: l' => "" :: each l'
                   | x :: l' => to_string x :: each l'
                   end) items)
  | VObj _ => "[object Object]"
  end.

(** An object made by [JSON.parse] has data properties only.  One that has
    a property of its own called toString has nothing ToString could call:
    the property hides [Object.prototype.toString] and cannot be called
    itself, and [valueOf] gives the object again (or is hidden in the same
    way).  An array is joined, which converts its elements, null and
    undefined apart. *)
Fixpoint has_string_form (v : value) : bool :=
  match v with
  | VObj props => negb (existsb (fun kv => String.eqb kv.1 "toString") props)
  | VArr items => forallb has_string_form items
  | _ => true
  end.

(** ToString, and [v.toString()] on a value that is not null or undefined;
    [None]: a TypeError is thrown. *)
Definition ToString (v : value) : option string :=
  if has_string_form v then Some (to_string v) else None.

(** First property called [k]; a missing property reads as undefined. *)
Fixpoint lookup_prop (k : string) (props : list (string * value)) : value :=
  match props with
  | [] => VUndefined
  | (k', v) :: rest => if String.eqb k k' then v else lookup_prop k rest
  end.

(** [Object.entries]: own enumerable properties in enumeration order. *)
Definition index_entries (l : list value) : list (string * value) :=
  imap (fun i v => (pretty i, v)) l.

(** The characters of a string, for the ASCII texts written here. *)
Fixpoint char_values (s : string) : list value :=
  match s with
  | EmptyString => []
  | String c s' => VStr (String c "") :: char_values s'
  end.

Definition Object_entries (v : value) : list (string * value) :=
  match v with
  | VObj props => props
  | VArr items => index_entries items
  | VStr s => index_entries (char_values s)
  | _ => []
  end.

(** ** JSON.stringify (value, null, space) *)

Definition hex_digit (n : N) : string :=
  String (nth (N.to_nat n)
            ["0";"1";"2";"3";"4";"5";"6";"7";"8";"9";"a";"b";"c";"d";"e";"f"]%char
            "0"%char) "".

Definition escape_char (c : ascii) : string :=
  let n := Ascii.N_of_ascii c in
  if (n =? 34)%N then "\" +:+ dquote
  else if (n =? 92)%N then "\\"
  else if (n =? 8)%N then "\b"
  else if (n =? 9)%N then "\t"
  else if (n =? 10)%N then "\n"
  else if (n =? 12)%N then "\f"
  else if (n =? 13)%N then "\r"
  else if (n <? 32)%N then "\u00" +:+ hex_digit (n / 16) +:+ hex_digit (n mod 16)
  else String c "".

Fixpoint escape (s : string) : string :=
  match s with
  | EmptyString => ""
  | String c s' => escape_char c +:+ escape s'
  end.

Definition quote (s : string) : string := dquote +:+ escape s +:+ dquote.

Fixpoint spaces (n : nat) : string :=
  match n with O => "" | S n' => " " +:+ spaces n' end.

Definition wrap (open close gap indent : string) (parts : list string) : string :=
  match parts with
  | [] => open +:+ close
  | _ =>
      if String.eqb gap "" then open +:+ join "," parts +:+ close
      else open +:+ newline +:+ indent +:+ gap
             +:+ join ("," +:+ newline +:+ indent +:+ gap) parts
             +:+ newline +:+ indent +:+ close
  end.

(** SerializeJSONProperty: [None] stands for undefined. *)
Fixpoint serialize (gap indent : string) (v : value) : option string :=
  match v with
  | VUndefined => None
  | VNull => Some "null"
  | VBool true => Some "true"
  | VBool false => Some "false"
  | VNum n => Some (num_to_string n)
  | VStr s => Some (quote s)
  | VArr items =>
      Some (wrap "[" "]" gap indent
              ((fix each (l : list value) : list string :=
                  match l with
                  | [] => []
                  | x :: l' =>
                      default "null" (serialize gap (indent +:+ gap) x) :: each l'
                  end) items))
  | VObj props =>
      Some (wrap "{" "}" gap indent
              ((fix each (l : list (string * value)) : list string :=
                  match l with
                  | [] => []
                  | (k, x) :: l' =>
                      match serialize gap (indent +:+ gap) x with
                      | Some s =>
                          (quote k +:+ ":" +:+ (if String.eqb gap "" then "" else " ") +:+ s)
                            :: each l'
                      | None => each l'
                      end
                  end) props))
  end.

Definition JSON_stringify (v : value) (space : nat) : option string :=
  serialize (spaces (Nat.min space 10)) "" v.

(** ** The file system *)

Record fs_state := MkFs { dirs : gset string; files : gmap string string }.

(** [path.join(a, b)] for the normalised paths used here. *)
Definition path_join (a b : string) : string := a +:+ "/" +:+ b.

Definition under (dir p : string) : bool := String.prefix (dir +:+ "/") p.

Definition dir_exists (f : fs_state) (p : string) : bool := bool_decide (p ∈ dirs f).

Definition read_file (f : fs_state) (p : string) : option string := files f !! p.

Definition make_dir (p : string) (f : fs_state) : fs_state :=
  MkFs ({[ p ]} ∪ dirs f) (files f).

Definition write_file (p content : string) (f : fs_state) : fs_state :=
  MkFs (dirs f) (<[ p := content ]> (files f)).

Definition keeps (p q : string) : Prop := q ≠ p ∧ under p q = false.

#[global] Instance keeps_dec p q : Decision (keeps p q).
Proof. unfold keeps. apply _. Defined.

(** [rm -rf p] *)
Definition remove_tree (p : string) (f : fs_state) : fs_state :=
  MkFs (filter (keeps p) (dirs f))
     (filter (fun kv => keeps p kv.1) (files f)).

(** ** The environment: the operating system, npm and the runtime

    None of it is defined by the repository.  [exec cmd cwd fs] is what running
    [cmd] in [cwd] does: how the promise settles and the file system it
    leaves. *)

Record exec_ok := ExecOk { stdout : string; stderr : string }.

Record exec_error :=
  ExecError { message : string; err_stdout : string; err_stderr : string }.

Inductive exec_outcome :=
| Resolved (r : exec_ok)
| Rejected (e : exec_error).

Inductive exn :=
| TypeError (msg : string)
| SyntaxError (msg : string)
| SystemError (msg : string)
| ChildProcessError (e : exec_error).

Definition exn_message (e : exn) : string :=
  match e with
  | TypeError m | SyntaxError m | SystemError m => m
  | ChildProcessError e => message e
  end.

(** [error.stdout] and [error.stderr] of a caught error. *)
Definition exn_stdout (e : exn) : value :=
  match e with ChildProcessError e => VStr (err_stdout e) | _ => VUndefined end.

Definition exn_stderr (e : exn) : value :=
  match e with ChildProcessError e => VStr (err_stderr e) | _ => VUndefined end.

Record env := Env {
  tmpdir : string;                       (* os.tmpdir() *)
  mkdtemp_suffix : string;               (* the six characters mkdtemp picks *)
  exec : string -> string -> fs_state -> exec_outcome * fs_state;
  JSON_parse : string -> exn + value;    (* inl: the SyntaxError thrown *)
  stack_of : exn -> string               (* error.stack *)
}.

(** ** HTTP *)

Record request := Request { method : string; body : value }.

Record response := Response { status : Z; json : value }.

(** ** The handler monad: state, exceptions, early return *)

Record invocation := Invocation {
  inv_cmd : string;
  inv_cwd : string;
  inv_fs : fs_state;                     (* the file system the command found *)
  inv_outcome : exec_outcome
}.

Record state := State { fs : fs_state; log : list invocation }.

Inductive completion (A : Type) :=
| Normal (a : A)
| Return (r : response)
| Throw (e : exn).

Arguments Normal {A} a.
Arguments Return {A} r.
Arguments Throw {A} e.

Definition M (A : Type) : Type := state -> completion A * state.

Definition ret {A} (a : A) : M A := fun st => (Normal a, st).

Definition bind {A B} (m : M A) (k : A -> M B) : M B :=
  fun st =>
    match m st with
    | (Normal a, st') => k a st'
    | (Return r, st') => (Return r, st')
    | (Throw e, st') => (Throw e, st')
    end.

Definition throw {A} (e : exn) : M A := fun st => (Throw e, st).

(** [return res.status(code).json(body)] *)
Definition send {A} (code : Z) (payload : value) : M A :=
  fun st => (Return (Response code payload), st).

(** [try { m } catch (error) { h error }] *)
Definition try_catch {A} (m : M A) (h : exn -> M A) : M A :=
  fun st =>
    match m st with
    | (Throw e, st') => h e st'
    | other => other
    end.

Declare Scope js_scope.
Delimit Scope js_scope with js.
Notation "x <- m ;; k" := (bind m (fun x => k))
  (at level 100, m at next level, right associativity) : js_scope.
Notation "m ;;; k" := (bind m (fun _ => k))
  (at level 100, right associativity) : js_scope.

Local Open Scope js_scope.

(** ** Reading properties *)

Definition describe_nullish (v : value) : string :=
  match v with VNull => "null" | _ => "undefined" end.

Definition nullish (v : value) : bool :=
  match v with VUndefined | VNull => true | _ => false end.

(** [v.k] on a value that is neither undefined nor null, for the property
    names this code reads; none of them is defined on the prototypes of
    arrays, strings, numbers or booleans. *)
Definition property (v : value) (k : string) : value :=
  match v with
  | VObj props => lookup_prop k props
  | _ => VUndefined
  end.

(** [v.k] *)
Definition get (v : value) (k : string) : M value :=
  if nullish v then
    throw (TypeError ("Cannot read properties of " +:+ describe_nullish v
                        +:+ " (reading '" +:+ k +:+ "')"))
  else ret (property v k).

(** [const { k } = v] where [v] is written [src] *)
Definition destructure (v : value) (k src : string) : M value :=
  if nullish v then
    throw (TypeError ("Cannot destructure property '" +:+ k +:+ "' of '" +:+ src
                        +:+ "' as it is " +:+ describe_nullish v +:+ "."))
  else ret (property v k).

(** [v?.k] *)
Definition get_opt (v : value) (k : string) : M value :=
  if nullish v then ret VUndefined else get v k.

(** What [v?.k] evaluates to; it never throws. *)
Definition property_opt (v : value) (k : string) : value :=
  if nullish v then VUndefined else property v k.

(** [a[0]] on an array *)
Definition first (v : value) : value :=
  match v with
  | VArr (x :: _) => x
  | _ => VUndefined
  end.

(** [`${v}`]: what a template literal does with a value *)
Definition interpolate (v : value) : M string :=
  match ToString v with
  | Some text => ret text
  | None => throw (TypeError "Cannot convert object to primitive value")
  end.

(** [l.map(f)] with a callback that may throw *)
Fixpoint mapM {A B} (f : A -> M B) (l : list A) : M (list B) :=
  match l with
  | [] => ret []
  | x :: l' => y <- f x ;; ys <- mapM f l' ;; ret (y :: ys)
  end.

(** ** fs and child_process *)

Definition mkdtempSync (E : env) (prefix : string) : M string :=
  fun st =>
    if dir_exists (fs st) (tmpdir E) then
      let p := prefix +:+ mkdtemp_suffix E in
      (Normal p, State (make_dir p (fs st)) (log st))
    else
      (Throw (SystemError ("ENOENT: no such file or directory, mkdtemp '"
                             +:+ prefix +:+ "XXXXXX'")), st).

(** The second argument is what [JSON.stringify] returned. *)
Definition writeFileSync (p : string) (data : option string) : M unit :=
  fun st =>
    match data with
    | Some content => (Normal tt, State (write_file p content (fs st)) (log st))
    | None =>
        (Throw (TypeError "The 'data' argument must be of type string or an instance of Buffer, TypedArray, or DataView. Received undefined"), st)
    end.

Definition readFileSync (p : string) : M string :=
  fun st =>
    match read_file (fs st) p with
    | Some content => (Normal content, st)
    | None =>
        (Throw (SystemError ("ENOENT: no such file or directory, open '" +:+ p +:+ "'")), st)
    end.

(** [fs.rmSync(p, { recursive: true, force: true })] *)
Definition rmSync (p : string) : M unit :=
  fun st => (Normal tt, State (remove_tree p (fs st)) (log st)).

(** [await execPromise(cmd, { cwd })] *)
Definition execPromise (E : env) (cmd cwd : string) : M exec_ok :=
  fun st =>
    let '(o, fs') := exec E cmd cwd (fs st) in
    let st' := State fs' (log st ++ [Invocation cmd cwd (fs st) o]) in
    match o with
    | Resolved r => (Normal r, st')
    | Rejected e => (Throw (ChildProcessError e), st')
    end.

(** ** The part the three variants share word for word *)

(** The callback of [Object.entries(...).map(([name, info]) => ...)]. *)
Definition normalize_entry (entry : string * value) : M value :=
  let '(name, info) := entry in
  via <- get info "via" ;;
  let viaInfo := if isArray via then first via else via in
  range <- get info "range" ;;
  vulnerability <- (if is_object viaInfo then get viaInfo "title" else ret viaInfo) ;;
  severity <- get info "severity" ;;
  fixAvailable <- get info "fixAvailable" ;;
  recommendation <-
    (if truthy fixAvailable then
       fixName <- get fixAvailable "name" ;;
       fixName <- interpolate fixName ;;
       fixVersion <- get fixAvailable "version" ;;
       fixVersion <- interpolate fixVersion ;;
       ret (VStr ("Upgrade " +:+ fixName +:+ " to version " +:+ fixVersion))
     else ret (VStr "No specific recommendation")) ;;
  cvssScore <-
    (if is_object viaInfo then cvss <- get viaInfo "cvss" ;; get_opt cvss "score"
     else ret VUndefined) ;;
  cvssVector <-
    (if is_object viaInfo then cvss <- get viaInfo "cvss" ;; get_opt cvss "vectorString"
     else ret VUndefined) ;;
  source <- (if is_object viaInfo then get viaInfo "source" else ret VUndefined) ;;
  url <- (if is_object viaInfo then get viaInfo "url" else ret VUndefined) ;;
  cwe <- (if is_object viaInfo then get viaInfo "cwe" else ret VUndefined) ;;
  ret (VObj [("name", VStr name);
             ("version", or_else range (VStr "unknown"));
             ("vulnerability", vulnerability);
             ("severity", or_else severity (VStr "unknown"));
             ("recommendation", recommendation);
             ("cvssScore", cvssScore);
             ("cvssVector", cvssVector);
             ("source", source);
             ("url", url);
             ("cwe", cwe)]).

(** From [const vulnerabilities = ...] to [res.status(200).json(...)]. *)
Definition respond_with_findings (auditOutput : value) : M unit :=
  reported <- get auditOutput "vulnerabilities" ;;
  vulnerabilities <- mapM normalize_entry (Object_entries (or_else reported (VObj []))) ;;
  metadata <- get auditOutput "metadata" ;;
  send 200 (VObj [("vulnerabilities", VArr vulnerabilities);
                  ("metadata", metadata)]).

(** The audit [try]/[catch]: a rejected promise is read like a resolved one. *)
Definition run_audit (E : env) (cmd tempDir : string) : M (value * value) :=
  try_catch
    (result <- execPromise E cmd tempDir ;;
     ret (VStr (stdout result), VStr (stderr result)))
    (fun error => ret (exn_stdout error, exn_stderr error)).

(** [JSON.parse(v)] applies ToString to its argument first. *)
Definition parse (E : env) (v : value) : M value :=
  match JSON_parse E (to_string v) with
  | inr parsed => ret parsed
  | inl parseError => throw parseError
  end.

(** The outer [catch] of every variant. *)
Definition on_error (E : env) (error : exn) : M unit :=
  send 500 (VObj [("error", VStr "Failed to perform npm audit");
                  ("details", VStr (exn_message error));
                  ("stack", VStr (stack_of E error))]).

(** ** The handler, first variant (lines 1 to 131) *)

Module V1.

Definition lock_cmd : string := "npm install --package-lock-only --ignore-scripts".
Definition install_cmd : string := "npm install --ignore-scripts".
Definition audit_cmd : string := "npm audit --json --omit=dev".

Definition handler (E : env) (req : request) : M unit :=
  if negb (String.eqb (method req) "POST") then
    send 405 (VObj [("message", VStr "Method Not Allowed")])
  else
    try_catch
      (dependencies <- destructure (body req) "dependencies" "req.body" ;;
       (if negb (truthy dependencies) || negb (is_object dependencies)
        then send 400 (VObj [("error", VStr "Invalid dependencies format")])
        else ret tt) ;;;
       tempDir <- mkdtempSync E (path_join (tmpdir E) "npm-audit-") ;;
       let tempFile := path_join tempDir "package.json" in
       let packageJsonContent :=
         VObj [("name", VStr "temp-package");
               ("version", VStr "1.0.0");
               ("dependencies", dependencies)] in
       writeFileSync tempFile (JSON_stringify packageJsonContent 2) ;;;
       _ <- readFileSync tempFile ;;
       try_catch
         (_ <- execPromise E lock_cmd tempDir ;;
          _ <- readFileSync (path_join tempDir "package-lock.json") ;;
          ret tt)
         (fun error =>
            send 500 (VObj [("error", VStr "Failed to create package-lock.json");
                            ("details", VStr (exn_message error))])) ;;;
       try_catch
         (_ <- execPromise E install_cmd tempDir ;; ret tt)
         (fun _ => ret tt) ;;;
       captured <- run_audit E audit_cmd tempDir ;;
       let '(stdoutAudit, stderrAudit) := captured in
       rmSync tempDir ;;;
       auditOutput <-
         try_catch (parse E stdoutAudit)
           (fun parseError =>
              send 500 (VObj [("error", VStr "Failed to parse npm audit output");
                              ("details", VStr (exn_message parseError));
                              ("stdoutAudit", stdoutAudit);
                              ("stderrAudit", stderrAudit)])) ;;
       respond_with_findings auditOutput)
      (on_error E).

End V1.

(** ** Second variant (lines 132 to 229): no validation, a bare manifest, and
    the lockfile step is not wrapped in a [try] of its own *)

Module V2.

Definition lock_cmd : string := "npm i --package-lock-only".
Definition audit_cmd : string := "npm audit --json --omit=dev".

Definition handler (E : env) (req : request) : M unit :=
  if negb (String.eqb (method req) "POST") then
    send 405 (VObj [("message", VStr "Method Not Allowed")])
  else
    try_catch
      (dependencies <- destructure (body req) "dependencies" "req.body" ;;
       tempDir <- mkdtempSync E (path_join (tmpdir E) "npm-audit-") ;;
       let tempFile := path_join tempDir "package.json" in
       writeFileSync tempFile
         (JSON_stringify (VObj [("dependencies", dependencies)]) 2) ;;;
       _ <- execPromise E lock_cmd tempDir ;;
       captured <- run_audit E audit_cmd tempDir ;;
       let '(stdout, stderr) := captured in
       rmSync tempDir ;;;
       auditOutput <-
         try_catch (parse E stdout)
           (fun parseError =>
              send 500 (VObj [("error", VStr "Failed to parse npm audit output");
                              ("details", VStr (exn_message parseError));
                              ("stdout", stdout);
                              ("stderr", stderr)])) ;;
       respond_with_findings auditOutput)
      (on_error E).

End V2.

(** ** Third variant (lines 229 to 337): npm through npx, offline lockfile *)

Module V3.

Definition lock_cmd : string := "npx npm install --package-lock-only --offline".
Definition audit_cmd : string := "npx npm audit --json --omit=dev".

Definition handler (E : env) (req : request) : M unit :=
  if negb (String.eqb (method req) "POST") then
    send 405 (VObj [("message", VStr "Method Not Allowed")])
  else
    try_catch
      (dependencies <- destructure (body req) "dependencies" "req.body" ;;
       tempDir <- mkdtempSync E (path_join (tmpdir E) "npm-audit-") ;;
       let tempFile := path_join tempDir "package.json" in
       writeFileSync tempFile
         (JSON_stringify (VObj [("dependencies", dependencies)]) 2) ;;;
       _ <- readFileSync tempFile ;;
       try_catch
         (_ <- execPromise E lock_cmd tempDir ;;
          _ <- readFileSync (path_join tempDir "package-lock.json") ;;
          ret tt)
         (fun error =>
            send 500 (VObj [("error", VStr "Failed to create package-lock.json");
                            ("details", VStr (exn_message error))])) ;;;
       captured <- run_audit E audit_cmd tempDir ;;
       let '(stdout, stderr) := captured in
       rmSync tempDir ;;;
       auditOutput <-
         try_catch (parse E stdout)
           (fun parseError =>
              send 500 (VObj [("error", VStr "Failed to parse npm audit output");
                              ("details", VStr (exn_message parseError));
                              ("stdout", stdout);
                              ("stderr", stderr)])) ;;
       respond_with_findings auditOutput)
      (on_error E).

End V3.

(** Serving one request on a file system: the response sent, if any, and the
    state that is left ([log]: the child processes that ran, oldest first). *)
Definition serve (h : M unit) (fs0 : fs_state) : option response * state :=
  match h (State fs0 []) with
  | (Return r, st) => (Some r, st)
  | (_, st) => (None, st)
  end.

Definition commands (st : state) : list string := inv_cmd <$> log st.

(** ** Observing a run *)

(** The three variants by number. *)
Inductive variant := First | Second | Third.

Definition handler_of (v : variant) : env -> request -> M unit :=
  match v with
  | First => V1.handler
  | Second => V2.handler
  | Third => V3.handler
  end.

Definition lock_cmd_of (v : variant) : string :=
  match v with
  | First => V1.lock_cmd
  | Second => V2.lock_cmd
  | Third => V3.lock_cmd
  end.

Definition audit_cmd_of (v : variant) : string :=
  match v with
  | First => V1.audit_cmd
  | Second => V2.audit_cmd
  | Third => V3.audit_cmd
  end.

(** The names the captured output goes by in the parse-failure response. *)
Definition capture_keys (v : variant) : string * string :=
  match v with
  | First => ("stdoutAudit", "stderrAudit")
  | _ => ("stdout", "stderr")
  end.

(** What the first variant writes as manifest, and what the others write. *)
Definition manifest_of (v : variant) (dependencies : value) : value :=
  match v with
  | First => VObj [("name", VStr "temp-package");
                   ("version", VStr "1.0.0");
                   ("dependencies", dependencies)]
  | _ => VObj [("dependencies", dependencies)]
  end.

(** The commands a variant runs when nothing stops it. *)
Definition pipeline_of (v : variant) : list string :=
  match v with
  | First => [V1.lock_cmd; V1.install_cmd; V1.audit_cmd]
  | Second => [V2.lock_cmd; V2.audit_cmd]
  | Third => [V3.lock_cmd; V3.audit_cmd]
  end.

(** The name of the scratch directory of a request. *)
Definition scratch (E : env) : string :=
  path_join (tmpdir E) "npm-audit-" +:+ mkdtemp_suffix E.

Definition captured_stdout (o : exec_outcome) : string :=
  match o with Resolved r => stdout r | Rejected e => err_stdout e end.

Definition captured_stderr (o : exec_outcome) : string :=
  match o with Resolved r => stderr r | Rejected e => err_stderr e end.

(** The manifest a child process finds in its working directory. *)
Definition manifest_seen (i : invocation) : option string :=
  read_file (inv_fs i) (path_join (inv_cwd i) "package.json").

(** The same outcome with the exit status forgotten. *)
Definition tolerate (o : exec_outcome) : exec_outcome :=
  match o with
  | Rejected e => Resolved (ExecOk (err_stdout e) (err_stderr e))
  | Resolved r => Resolved r
  end.

(** The environment in which [cmd] always exits with status zero and
    otherwise does and prints what it does in [E]. *)
Definition with_exit_code_ignored (cmd : string) (E : env) : env :=
  Env (tmpdir E) (mkdtemp_suffix E)
      (fun c cwd f =>
         if String.eqb c cmd
         then (tolerate (exec E c cwd f).1, (exec E c cwd f).2)
         else exec E c cwd f)
      (JSON_parse E) (stack_of E).

(** What a response and a final state show from outside. *)
Definition observe (r : option response * state)
  : option response * fs_state * list string :=
  (r.1, fs r.2, commands r.2).

Definition reports_no_vulnerabilities (auditOutput : value) : bool :=
  match auditOutput with
  | VObj props =>
      match lookup_prop "vulnerabilities" props with
      | VUndefined | VObj [] => true
      | _ => false
      end
  | _ => false
  end.

(** [v.metadata.vulnerabilities.total], the total the dashboard shows. *)
Definition summary_total (v : value) : value :=
  property (property (property v "metadata") "vulnerabilities") "total".

(** The guard on the request body: only the first variant has one. *)
Definition accepts (v : variant) (dependencies : value) : bool :=
  match v with
  | First => truthy dependencies && is_object dependencies
  | _ => true
  end.

(** What a computation that ignores the state gives. *)
Definition result_of {A} (m : M A) : completion A :=
  (m (State (MkFs ∅ ∅) [])).1.

(** A computation that returns a value or throws, the same in every state,
    and leaves the state as it found it. *)
Definition pure {A} (m : M A) : Prop :=
  (forall st, m st = (result_of m, st)) /\ (forall r, result_of m <> Return r).

(** The element of [via] the normalisation looks at. *)
Definition via_info (info : value) : value :=
  let via := property info "via" in
  if isArray via then first via else via.

(** The upgrade of a finding can be put into words: there is none, or its
    name and its version have a text. *)
Definition fix_has_text (info : value) : bool :=
  let fixAvailable := property info "fixAvailable" in
  negb (truthy fixAvailable)
  || (has_string_form (property fixAvailable "name")
      && has_string_form (property fixAvailable "version")).

(** ** The dashboard component (NpmAuditDashboard.tsx)

    The types [AuditResult] and [AuditSummary] are erased when the component
    runs.  The results are held as [performAudit] stores them: null, or the
    list the endpoint sent, whose records are read property by property
    whatever they hold.  The summary is held at its declared type, six
    numbers.  A function that can throw returns an option; [None] stands for
    the TypeError, whose wording is the browser's. *)

Module Dashboard.

Record AuditSummary := {
  info : number;
  low : number;
  moderate : number;
  high : number;
  critical : number;
  total : number
}.

(** The component's state ([useState]). *)
Record component := {
  auditResults : option (list value);
  auditSummary : option AuditSummary;
  isLoading : bool;
  error : option string;
  globalFilter : string;
  showToast : bool
}.

(** [s || d] on an optional string *)
Definition str_or (o : option string) (d : string) : string :=
  match o with
  | Some s => if String.eqb s "" then d else s
  | None => d
  end.

(** [auditSummary?.field] *)
Definition summary_field (c : component) (field : AuditSummary -> number)
  : option number :=
  field <$> auditSummary c.

(** *** The table columns *)

(** The cell of the CVSS Score column: the score (shown with one decimal)
    over its vector, or the text N/A. *)
Inductive cvss_view :=
| CvssShown (score : number) (vector : value)
| CvssText (s : string).

(** Only a number has [toFixed]. *)
Definition cvssScore_cell (original : value) : option cvss_view :=
  if nullish original then None
  else
    let cvssScore := property original "cvssScore" in
    if truthy cvssScore then
      match cvssScore with
      | VNum n => Some (CvssShown n (property original "cvssVector"))
      | _ => None
      end
    else Some (CvssText "N/A").

Definition column_headers : list string :=
  ["Package"; "Version"; "Vulnerability"; "Severity"; "CVSS Score"; "Recommendation"].

(** [auditSummary?.field || 0] *)
Definition count_or_zero (c : component) (field : AuditSummary -> number) : number :=
  match summary_field c field with
  | Some n => if num_truthy n then n else num_zero
  | None => num_zero
  end.

(** *** generatePDFReport: the calls made on the jsPDF document, in order *)

Inductive ypos :=
| AtY (y : Z)
| BelowLastTable (dy : Z).       (* lastAutoTable.finalY + dy *)

(** The cells of a body are handed to autoTable as they are. *)
Record table := {
  startY : ypos;
  thead : list (list string);
  tbody : list (list value)
}.

Inductive pdf_op :=
| SetFontSize (size : Z)
| Text (s : string) (x : Z) (y : ypos)
| AutoTable (t : table)
| Save (filename : string).

(** [auditSummary?.field?.toString() || '0'] *)
Definition count_text (c : component) (field : AuditSummary -> number) : string :=
  str_or (num_to_string <$> summary_field c field) "0".

Definition summaryData (c : component) : list (list value) :=
  [[VStr "Total"; VStr (count_text c total)];
   [VStr "Critical"; VStr (count_text c critical)];
   [VStr "High"; VStr (count_text c high)];
   [VStr "Moderate"; VStr (count_text c moderate)];
   [VStr "Low"; VStr (count_text c low)];
   [VStr "Info"; VStr (count_text c info)]].

(** [v?.toString()] *)
Definition toString_opt (v : value) : option value :=
  if nullish v then Some VUndefined else VStr <$> ToString v.

(** The callback of [auditResults?.map(...)]. *)
Definition pdf_row (result : value) : option (list value) :=
  if nullish result then None
  else
    cvssScore ← toString_opt (property result "cvssScore");
    Some [property result "name";
          property result "version";
          property result "vulnerability";
          property result "severity";
          or_else cvssScore (VStr "N/A");
          property result "recommendation"].

Definition tableData (c : component) : option (list (list value)) :=
  match auditResults c with
  | Some results => list.mapM pdf_row results
  | None => Some []
  end.

(** [None]: building the details table threw, nothing is saved. *)
Definition generatePDFReport (c : component) : option (list pdf_op) :=
  let before :=
    [SetFontSize 20;
     Text "NPM Audit Report" 14 (AtY 22);
     SetFontSize 16;
     Text "Vulnerability Summary" 14 (AtY 32);
     AutoTable {| startY := AtY 38;
                  thead := [["Severity"; "Count"]];
                  tbody := summaryData c |};
     SetFontSize 16;
     Text "Vulnerability Details" 14 (BelowLastTable 10)] in
  tableData ← tableData c;
  Some (before ++
        [AutoTable {| startY := BelowLastTable 16;
                      thead := [column_headers];
                      tbody := tableData |};
         Save "npm-audit-report.pdf"])%list.

(** The tables of a document, in drawing order. *)
Definition tables (doc : list pdf_op) : list table :=
  omap (fun op => match op with AutoTable t => Some t | _ => None end) doc.

(** *** generateMarkdownReport *)

(** The callback of [auditResults?.forEach(...)]: the text appended. *)
Definition markdown_row (result : value) : option string :=
  if nullish result then None
  else
    name ← ToString (property result "name");
    version ← ToString (property result "version");
    vulnerability ← ToString (property result "vulnerability");
    severity ← ToString (property result "severity");
    cvssScore ← ToString (or_else (property result "cvssScore") (VStr "N/A"));
    recommendation ← ToString (property result "recommendation");
    Some ("| " +:+ name +:+ " | " +:+ version +:+ " | " +:+ vulnerability +:+ " | "
            +:+ severity +:+ " | " +:+ cvssScore +:+ " | " +:+ recommendation
            +:+ " |" +:+ newline).

(** [`- Label: ${auditSummary?.field || 0}\n`] *)
Definition summary_line (label : string) (c : component)
    (field : AuditSummary -> number) : string :=
  "- " +:+ label +:+ ": " +:+ num_to_string (count_or_zero c field) +:+ newline.

Definition generateMarkdownReport (c : component) : option string :=
  let markdown := "# NPM Audit Report" +:+ newline +:+ newline in
  let markdown := markdown +:+ "## Vulnerability Summary" +:+ newline +:+ newline in
  let markdown := markdown +:+ summary_line "Total" c total in
  let markdown := markdown +:+ summary_line "Critical" c critical in
  let markdown := markdown +:+ summary_line "High" c high in
  let markdown := markdown +:+ summary_line "Moderate" c moderate in
  let markdown := markdown +:+ summary_line "Low" c low in
  let markdown := markdown +:+ summary_line "Info" c info +:+ newline in
  let markdown := markdown +:+ "## Vulnerability Details" +:+ newline +:+ newline in
  let markdown := markdown
    +:+ "| Package | Version | Vulnerability | Severity | CVSS Score | Recommendation |"
    +:+ newline in
  let markdown := markdown
    +:+ "|---------|---------|---------------|----------|------------|----------------|"
    +:+ newline in
  match auditResults c with
  | Some results =>
      fold_left
        (fun markdown result =>
           markdown ← markdown; row ← markdown_row result; Some (markdown +:+ row))
        results (Some markdown)
  | None => Some markdown
  end.

(** A record that is there and whose cells all have a text. *)
Definition printable (result : value) : bool :=
  negb (nullish result)
  && forallb (fun k => has_string_form (property result k))
       ["name"; "version"; "vulnerability"; "severity"; "cvssScore"; "recommendation"].

End Dashboard.

(** ** The audit report as npm documents it

    The shapes [npm audit --json] prints for a finding: [via] lists package
    names and advisories, [fixAvailable] is [false], or the upgrade that
    fixes the finding.  npm also prints a bare [true]; that shape is left
    out here and treated on its own. *)

Module Npm.

Record cvss := { score : option number; vectorString : option string }.
















End Npm.

(** ** performAudit: what the component does with the text of a dropped file

    The calls it makes, in order: the state setters and [fetch].  The
    browser is a parameter: [JSON.parse], and what [fetch] and
    [response.json()] give. *)

Module Client.

Inductive effect :=
| SetIsLoading (b : bool)
| SetError (e : option string)
| SetAuditResults (v : value)
| SetAuditSummary (v : value)
| Fetch (url method payload : string).

Record http_response := {
  ok : bool;
  http_status : Z;
  response_json : exn + value          (* inl: response.json() rejects *)
}.

Record browser := {
  JSON_parse : string -> exn + value;
  fetch : string -> string -> string -> exn + http_response   (* inl: fetch rejects *)
}.

(** What the [try] block can throw: an error of the runtime, or the
    [new Error(...)] of the component. *)
Inductive thrown :=
| Raised (e : exn)
| HttpError (msg : string).

Definition thrown_message (t : thrown) : string :=
  match t with
  | Raised e => exn_message e
  | HttpError msg => msg
  end.

(** A computation: the calls made, and a value or what was thrown. *)
Definition C (A : Type) : Type := list effect * (thrown + A).

Definition ret {A} (a : A) : C A := ([], inr a).

Definition bind {A B} (m : C A) (k : A -> C B) : C B :=
  match m with
  | (calls, inr a) => let '(calls', r) := k a in ((calls ++ calls')%list, r)
  | (calls, inl t) => (calls, inl t)
  end.

Definition call (e : effect) : C unit := ([e], inr tt).

Definition throw {A} (t : thrown) : C A := ([], inl t).

Definition lift {A} (r : exn + A) : C A :=
  match r with
  | inr a => ret a
  | inl e => throw (Raised e)
  end.

(** [try { m } catch (error) { h error }] *)
Definition try_catch {A} (m : C A) (h : thrown -> C A) : C A :=
  match m with
  | (calls, inl t) => let '(calls', r) := h t in ((calls ++ calls')%list, r)
  | done => done
  end.

(** [try { m } finally { f }] *)
Definition try_finally {A} (m : C A) (f : C unit) : C A :=
  match m, f with
  | (calls, r), (calls', inr _) => ((calls ++ calls')%list, r)
  | (calls, _), (calls', inl t) => ((calls ++ calls')%list, inl t)
  end.

Declare Scope client_scope.
Notation "x <- m ;; k" := (bind m (fun x => k))
  (at level 100, m at next level, right associativity) : client_scope.
Notation "m ;;; k" := (bind m (fun _ => k))
  (at level 100, right associativity) : client_scope.

Local Open Scope client_scope.

(** [v.k] *)
Definition get (v : value) (k : string) : C value :=
  if nullish v then
    throw (Raised (TypeError ("Cannot read properties of " +:+ describe_nullish v
                                +:+ " (reading '" +:+ k +:+ "')")))
  else ret (property v k).

(** [const { k } = JSON.parse(...)] *)
Definition destructure (v : value) (k : string) : C value :=
  if nullish v then
    throw (Raised (TypeError ("Cannot destructure property '" +:+ k +:+ "' of '"
                                +:+ "JSON.parse(...)" +:+ "' as it is "
                                +:+ describe_nullish v +:+ ".")))
  else ret (property v k).

(** [await fetch(url, { method, headers, body })] *)
Definition do_fetch (B : browser) (url method payload : string) : C http_response :=
  call (Fetch url method payload) ;;;
  lift (fetch B url method payload).

Definition performAudit (B : browser) (packageJsonContent : string) : C unit :=
  call (SetIsLoading true) ;;;
  call (SetError None) ;;;
  try_finally
    (try_catch
       (parsed <- lift (JSON_parse B packageJsonContent) ;;
        dependencies <- destructure parsed "dependencies" ;;
        response <- do_fetch B "/api/npm-audit" "POST"
                      (default "" (JSON_stringify (VObj [("dependencies", dependencies)]) 0)) ;;
        data <- lift (response_json response) ;;
        (if negb (ok response) then
           error <- get data "error" ;;
           throw (HttpError
                    (to_string
                       (or_else error
                          (VStr ("HTTP error! status: " +:+ pretty (http_status response))))))
         else ret tt) ;;;
        vulnerabilities <- get data "vulnerabilities" ;;
        call (SetAuditResults (or_else vulnerabilities (VArr []))) ;;;
        metadata <- get data "metadata" ;;
        call (SetAuditSummary (or_else (property_opt metadata "vulnerabilities") VNull)))
       (fun error =>
          call (SetError
                  (Some ("An error occurred while performing the audit: "
                           +:+ thrown_message error)))))
    (call (SetIsLoading false)).

End Client.

(** The error message as performAudit words it. *)
Definition banner (msg : string) : Client.effect :=
  Client.SetError (Some ("An error occurred while performing the audit: " +:+ msg)).

(** The browser whose every request is served by one variant of the
    endpoint in the world [E] on the file system [fs0]; bodies travel as
    JSON text and are read back with the [JSON.parse] of [E]. *)
Definition served_by (v : variant) (E : env) (fs0 : fs_state) : Client.browser :=
  {| Client.JSON_parse := JSON_parse E;
     Client.fetch := fun url method payload =>
       match JSON_parse E payload with
       | inr sent =>
           match (serve (handler_of v E (Request method sent)) fs0).1 with
           | Some r =>
               inr {| Client.ok := bool_decide (200 <= status r < 300)%Z;
                      Client.http_status := status r;
                      Client.response_json :=
                        JSON_parse E (default "" (JSON_stringify (json r) 0)) |}
           | None => inl (TypeError "Failed to fetch")
           end
       | inl e =>
           inr {| Client.ok := false; Client.http_status := 400;
                 Client.response_json := inl e |}
       end |}.


(** ** A sample world: a temp directory, an npm whose audit exits with a
    non-zero status, and a [JSON.parse] that knows the texts of a few values *)

Module Sample.

Definition tmp_only : fs_state := MkFs {[ "/tmp" ]} ∅.

Definition text_of (v : value) : string := default "" (JSON_stringify v 2).

Definition counts (i l m h c t : Z) : value :=
  VObj [("info", VNum (Num i 0)); ("low", VNum (Num l 0));
        ("moderate", VNum (Num m 0)); ("high", VNum (Num h 0));
        ("critical", VNum (Num c 0)); ("total", VNum (Num t 0))].

Definition lodash_advisory : value :=
  VObj [("source", VNum (Num 1094500 0));
        ("name", VStr "lodash");
        ("dependency", VStr "lodash");
        ("title", VStr "Command Injection in lodash");
        ("url", VStr "https://github.com/advisories/GHSA-35jh-r3h4-6jhm");
        ("severity", VStr "high");
        ("cwe", VArr [VStr "CWE-77"; VStr "CWE-94"]);
        ("cvss", VObj [("score", VNum (Num 72 1));
                       ("vectorString",
                        VStr "CVSS:3.1/AV:N/AC:L/PR:H/UI:N/S:U/C:H/I:H/A:H")]);
        ("range", VStr "<4.17.21")].

Definition lodash_finding : value :=
  VObj [("name", VStr "lodash");
        ("severity", VStr "high");
        ("isDirect", VBool true);
        ("via", VArr [lodash_advisory]);
        ("effects", VArr []);
        ("range", VStr "<4.17.21");
        ("nodes", VArr [VStr "node_modules/lodash"]);
        ("fixAvailable", VBool true)].

Definition lodash_report : value :=
  VObj [("auditReportVersion", VNum (Num 2 0));
        ("vulnerabilities", VObj [("lodash", lodash_finding)]);
        ("metadata", VObj [("vulnerabilities", counts 0 0 0 1 0 1)])].

Definition clean_report : value :=
  VObj [("auditReportVersion", VNum (Num 2 0));
        ("vulnerabilities", VObj []);
        ("metadata", VObj [("vulnerabilities", counts 0 0 0 0 0 0)])].

(** The same text without indentation, as [res.json] and [fetch] send it. *)
Definition compact (v : value) : string := default "" (JSON_stringify v 0).

Definition parse_known (known : list value) (s : string) : exn + value :=
  match find (fun v => String.eqb (text_of v) s || String.eqb (compact v) s) known with
  | Some v => inr v
  | None => inl (SyntaxError "Unexpected token in JSON at position 0")
  end.

Definition invalid_dependencies : value :=
  VObj [("error", VStr "Invalid dependencies format")].

(** A package.json that declares no dependencies. *)
Definition bare_package : value :=
  VObj [("name", VStr "demo"); ("version", VStr "0.1.0")].

Definition known_values : list value :=
  [lodash_report; clean_report; VObj []; invalid_dependencies; bare_package;
   VObj [("dependencies", VObj [("lodash", VStr "4.17.15")])]].

Definition is_audit (cmd : string) : bool :=
  String.prefix "npm audit" cmd || String.prefix "npx npm audit" cmd.

(** npm: the lockfile step works or not, the audit prints [printed] and
    exits with status 1. *)
Definition npm (lock_ok : bool) (printed : string) (cmd cwd : string) (f : fs_state)
  : exec_outcome * fs_state :=
  if is_audit cmd then
    (Rejected (ExecError ("Command failed: " +:+ cmd) printed ""), f)
  else if lock_ok then
    (Resolved (ExecOk "" ""), write_file (path_join cwd "package-lock.json") "{}" f)
  else
    (Rejected (ExecError ("Command failed: " +:+ cmd) "" "npm ERR! code ETARGET"), f).

Definition world (lock_ok : bool) (printed : string) : env :=
  Env "/tmp" "Ab3dE9" (npm lock_ok printed)
      (parse_known known_values)
      (fun e => "Error: " +:+ exn_message e).

Definition vulnerable : env := world true (text_of lodash_report).
Definition clean : env := world true (text_of clean_report).
Definition garbled : env := world true "npm ERR! audit endpoint returned an error".
Definition unresolvable : env := world false "".

Definition post (payload : value) : request := Request "POST" payload.

Definition lodash_request : request :=
  post (VObj [("dependencies", VObj [("lodash", VStr "4.17.15")])]).

(** The record the endpoint makes of [lodash_finding]. *)
Definition lodash_record : value :=
  VObj [("name", VStr "lodash");
        ("version", VStr "<4.17.21");
        ("vulnerability", VStr "Command Injection in lodash");
        ("severity", VStr "high");
        ("recommendation", VStr "Upgrade undefined to version undefined");
        ("cvssScore", VNum (Num 72 1));
        ("cvssVector", VStr "CVSS:3.1/AV:N/AC:L/PR:H/UI:N/S:U/C:H/I:H/A:H");
        ("source", VNum (Num 1094500 0));
        ("url", VStr "https://github.com/advisories/GHSA-35jh-r3h4-6jhm");
        ("cwe", VArr [VStr "CWE-77"; VStr "CWE-94"])].

(** A record with a score of zero and no title, as the response carries
    it: what was undefined is not there. *)
Definition unscored_record : value :=
  VObj [("name", VStr "debug");
        ("version", VStr "<2.6.9");
        ("severity", VStr "low");
        ("recommendation", VStr "Upgrade debug to version 2.6.9");
        ("cvssScore", VNum (Num 0 1))].

(** A record whose advisory had no title. *)
Definition untitled_record : value :=
  VObj [("name", VStr "minimist");
        ("version", VStr "<1.2.6");
        ("severity", VStr "critical");
        ("recommendation", VStr "No specific recommendation");
        ("cvssScore", VNum (Num 98 1))].

Definition summary : Dashboard.AuditSummary :=
  {| Dashboard.info := Num 0 0; Dashboard.low := Num 1 0;
     Dashboard.moderate := Num 0 0; Dashboard.high := Num 1 0;
     Dashboard.critical := Num 0 0; Dashboard.total := Num 2 0 |}.

(** A component showing the two records. *)
Definition dashboard : Dashboard.component :=
  {| Dashboard.auditResults := Some [lodash_record; unscored_record];
     Dashboard.auditSummary := Some summary;
     Dashboard.isLoading := false;
     Dashboard.error := None;
     Dashboard.globalFilter := "";
     Dashboard.showToast := false |}.

(** A browser that knows the same texts and always gets [answer]. *)
Definition browser (answer : exn + Client.http_response) : Client.browser :=
  {| Client.JSON_parse := parse_known known_values;
     Client.fetch := fun _ _ _ => answer |}.

Definition manifest_text : string :=
  text_of (VObj [("dependencies", VObj [("lodash", VStr "4.17.15")])]).

Definition manifest : value :=
  VObj [("dependencies", VObj [("lodash", VStr "4.17.15")])].


Definition lodash_answer : Client.http_response :=
  {| Client.ok := true;
     Client.http_status := 200;
     Client.response_json :=
       inr (VObj [("vulnerabilities", VArr [lodash_record]);
                  ("metadata", property lodash_report "metadata")]) |}.

End Sample.

(** * Running the monad *)

Lemma JSON_stringify_object props n : is_Some (JSON_stringify (VObj props) n).
Proof. unfold JSON_stringify. simpl. eauto. Qed.

Lemma read_write_same p c f : read_file (write_file p c f) p = Some c.
Proof. unfold read_file, write_file. simpl. apply lookup_insert_eq. Qed.

Lemma get_run v k st :
  nullish v = false -> get v k st = (Normal (property v k), st).
Proof. intros H. unfold get. rewrite H. reflexivity. Qed.

Lemma get_opt_run v k st : get_opt v k st = (Normal (property_opt v k), st).
Proof.
  unfold get_opt, property_opt. destruct (nullish v) eqn:H; [reflexivity|].
  by apply get_run.
Qed.

Lemma truthy_not_nullish v : truthy v = true -> nullish v = false.
Proof. by destruct v. Qed.

Lemma is_object_not_null v : is_object v = true -> v <> VNull -> nullish v = false.
Proof. destruct v; try done. Qed.

Lemma interpolate_run v st :
  has_string_form v = true -> interpolate v st = (Normal (to_string v), st).
Proof. intros H. unfold interpolate, ToString. by rewrite H. Qed.

Lemma interpolate_throws v st :
  has_string_form v = false ->
  interpolate v st = (Throw (TypeError "Cannot convert object to primitive value"), st).
Proof. intros H. unfold interpolate, ToString. by rewrite H. Qed.

Lemma fix_has_text_inv info :
  fix_has_text info = true ->
  truthy (property info "fixAvailable") = true ->
  has_string_form (property (property info "fixAvailable") "name") = true /\
  has_string_form (property (property info "fixAvailable") "version") = true.
Proof.
  unfold fix_has_text. intros H Ht. rewrite Ht in H. by apply andb_true_iff in H.
Qed.

(** One record of the response, when nothing throws. *)
Lemma normalize_entry_run name info st :
  nullish info = false ->
  via_info info <> VNull ->
  fix_has_text info = true ->
  let vi := via_info info in
  let fx := property info "fixAvailable" in
  normalize_entry (name, info) st =
    (Normal
       (VObj [("name", VStr name);
              ("version", or_else (property info "range") (VStr "unknown"));
              ("vulnerability", if is_object vi then property vi "title" else vi);
              ("severity", or_else (property info "severity") (VStr "unknown"));
              ("recommendation",
                 VStr (if truthy fx
                       then "Upgrade " +:+ to_string (property fx "name")
                              +:+ " to version " +:+ to_string (property fx "version")
                       else "No specific recommendation"));
              ("cvssScore",
                 if is_object vi then property_opt (property vi "cvss") "score"
                 else VUndefined);
              ("cvssVector",
                 if is_object vi then property_opt (property vi "cvss") "vectorString"
                 else VUndefined);
              ("source", if is_object vi then property vi "source" else VUndefined);
              ("url", if is_object vi then property vi "url" else VUndefined);
              ("cwe", if is_object vi then property vi "cwe" else VUndefined)]),
     st).
Proof.
  intros Hinfo Hvia Hfix. cbv zeta.
  assert (Hvi : is_object (via_info info) = true -> nullish (via_info info) = false)
    by (intros; by apply is_object_not_null).
  pose proof (fix_has_text_inv info Hfix) as Htext.
  unfold via_info in *.
  destruct (is_object _) eqn:Hobj in Hvi |- *;
    destruct (truthy (property info "fixAvailable")) eqn:Hfx;
    try destruct (Htext eq_refl) as [Hname Hversion];
    unfold normalize_entry, bind;
    repeat first
      [ rewrite (get_run info) by done
      | rewrite get_run by auto using truthy_not_nullish
      | rewrite get_opt_run
      | rewrite interpolate_run by done
      | rewrite Hobj
      | rewrite Hfx
      | progress cbv beta iota zeta delta [ret] ];
    reflexivity.
Qed.

Lemma pure_ret {A} (a : A) : pure (ret a).
Proof. split; [done|]. intros r. discriminate. Qed.

Lemma pure_throw {A} e : pure (@throw A e).
Proof. split; [done|]. intros r. discriminate. Qed.

Lemma pure_bind {A B} (m : M A) (k : A -> M B) :
  pure m -> (forall a, pure (k a)) -> pure (bind m k).
Proof.
  intros [Hm Rm] Hk.
  assert (Hb : forall st, bind m k st =
            (match result_of m with
             | Normal a => result_of (k a)
             | Return r => Return r
             | Throw e => Throw e
             end, st)).
  { intros st. unfold bind. rewrite (Hm st).
    destruct (result_of m) as [a|r|e]; [apply Hk|done|done]. }
  split.
  - intros st. rewrite Hb. unfold result_of at 3. by rewrite Hb.
  - intros r. unfold result_of. rewrite Hb. cbn.
    destruct (result_of m) as [a|r'|e] eqn:Hr; [apply Hk|by destruct (Rm r')|done].
Qed.

Lemma pure_get v k : pure (get v k).
Proof. unfold get. destruct (nullish v); [apply pure_throw|apply pure_ret]. Qed.

Lemma pure_get_opt v k : pure (get_opt v k).
Proof. unfold get_opt. destruct (nullish v); [apply pure_ret|apply pure_get]. Qed.

Lemma pure_interpolate v : pure (interpolate v).
Proof. unfold interpolate. destruct (ToString v); [apply pure_ret|apply pure_throw]. Qed.

Lemma pure_if {A} (b : bool) (m1 m2 : M A) :
  pure m1 -> pure m2 -> pure (if b then m1 else m2).
Proof. by destruct b. Qed.

Lemma pure_normalize_entry entry : pure (normalize_entry entry).
Proof.
  destruct entry as [name info]. unfold normalize_entry.
  repeat first
    [ apply pure_get
    | apply pure_get_opt
    | apply pure_interpolate
    | apply pure_ret
    | apply pure_if
    | apply pure_bind; [|intros ?]
    | progress cbv zeta ].
Qed.

Lemma pure_mapM {A B} (f : A -> M B) l :
  (forall x, pure (f x)) -> pure (mapM f l).
Proof.
  intros Hf. induction l as [|x l IH]; simpl.
  - apply pure_ret.
  - apply pure_bind; [apply Hf|intros y].
    apply pure_bind; [apply IH|intros ys]. apply pure_ret.
Qed.

(** The records of a report: one per reported entry, or the error thrown. *)
Lemma records_run auditOutput st :
  let entries :=
    Object_entries (or_else (property auditOutput "vulnerabilities") (VObj [])) in
  mapM normalize_entry entries st = (result_of (mapM normalize_entry entries), st).
Proof. apply pure_mapM, pure_normalize_entry. Qed.

(** The last step of every variant leaves the state alone. *)
Lemma respond_with_findings_run auditOutput st :
  respond_with_findings auditOutput st =
    (result_of (respond_with_findings auditOutput), st).
Proof.
  assert (H : forall st, respond_with_findings auditOutput st =
    (if nullish auditOutput
     then Throw (TypeError ("Cannot read properties of "
                              +:+ describe_nullish auditOutput
                              +:+ " (reading '" +:+ "vulnerabilities" +:+ "')"))
     else match result_of (mapM normalize_entry
                   (Object_entries
                      (or_else (property auditOutput "vulnerabilities") (VObj [])))) with
          | Normal records =>
              Return (Response 200
                        (VObj [("vulnerabilities", VArr records);
                               ("metadata", property auditOutput "metadata")]))
          | Return r => Return r
          | Throw e => Throw e
          end, st)).
  { intros st'. unfold respond_with_findings, bind, get.
    destruct (nullish auditOutput); [done|].
    cbv beta iota delta [ret]. rewrite records_run. by destruct (result_of _). }
  rewrite H. unfold result_of at 2. by rewrite H.
Qed.

(** It throws, or it answers 200 with the records and the metadata. *)
Lemma respond_with_findings_cases auditOutput :
  (exists e, result_of (respond_with_findings auditOutput) = Throw e) \/
  (exists records,
      nullish auditOutput = false /\
      result_of (mapM normalize_entry
                   (Object_entries
                      (or_else (property auditOutput "vulnerabilities") (VObj []))))
        = Normal records /\
      result_of (respond_with_findings auditOutput) =
        Return (Response 200 (VObj [("vulnerabilities", VArr records);
                                    ("metadata", property auditOutput "metadata")]))).
Proof.
  unfold result_of at 1 3. unfold respond_with_findings, bind, get.
  destruct (nullish auditOutput) eqn:Hn; [left; eauto|].
  cbv beta iota delta [ret]. rewrite records_run.
  destruct (pure_mapM normalize_entry
              (Object_entries (or_else (property auditOutput "vulnerabilities") (VObj [])))
              pure_normalize_entry) as [_ Hnr].
  destruct (result_of (mapM _ _)) as [records|r|e] eqn:Hr.
  - right. exists records. auto.
  - by destruct (Hnr r).
  - left. eauto.
Qed.

(** * Symbolic execution of a handler *)

Ltac head_scrutinee t :=
  lazymatch t with
  | match ?x with _ => _ end => head_scrutinee x
  | ?f _ =>
      lazymatch f with
      | match ?x with _ => _ end => head_scrutinee x
      | _ => t
      end
  | _ => t
  end.

Ltac unfold_run H :=
  cbv [serve handler_of V1.handler V2.handler V3.handler bind try_catch ret throw send
       destructure mkdtempSync writeFileSync readFileSync rmSync execPromise
       run_audit parse on_error with_exit_code_ignored audit_cmd_of] in H;
  cbn [tmpdir mkdtemp_suffix exec JSON_parse stack_of] in H;
  cbv beta iota zeta delta [fs log fst snd tolerate] in H.

(** One step: the scrutinee at the head of the run is rewritten with what is
    known of it, or split into its cases. *)
Ltac run_step H :=
  lazymatch type of H with
  | ?lhs = _ =>
      let x := head_scrutinee lhs in
      lazymatch x with (_, _) => fail "done" | _ => idtac end;
      first
        [ match goal with Hx : x = _ |- _ => rewrite Hx in H end
        | lazymatch x with
          | JSON_stringify (VObj ?p) ?n =>
              let s := fresh "text" in
              let Hs := fresh "Htext" in
              destruct (JSON_stringify_object p n) as [s Hs]; rewrite Hs in H
          | read_file (write_file ?p ?c ?f) ?p => rewrite (read_write_same p c f) in H
          | respond_with_findings ?v ?st => rewrite (respond_with_findings_run v st) in H
          | String.eqb _ _ =>
              let b := eval vm_compute in x in
              change x with b in H
          | _ => destruct x eqn:?
          end ]
  end;
  cbv beta iota zeta delta [fs log fst snd tolerate] in H;
  cbn [exn_stdout exn_stderr to_string stdout stderr] in H.

Ltac run H := unfold_run H; repeat run_step H; injection H as <- <-.

(** * The audit endpoint *)

(** ** Cleaning up *)

(** C1, as the code runs it: when the lockfile step fails the request ends
    with status 500 after that one command, and the scratch directory and
    the manifest written into it are still there; no variant removes them
    on this path. *)
Theorem C1_scratch_directory_left_behind v :
  let r := serve (handler_of v Sample.unresolvable Sample.lodash_request) Sample.tmp_only in
  status <$> r.1 = Some 500%Z /\
  commands r.2 = [lock_cmd_of v] /\
  dir_exists (fs r.2) (scratch Sample.unresolvable) = true /\
  read_file (fs r.2) (path_join (scratch Sample.unresolvable) "package.json")
    = JSON_stringify
        (manifest_of v (property (body Sample.lodash_request) "dependencies")) 2.
Proof. destruct v; vm_compute; auto. Qed.

(** ** Validation *)

(** C2, amended: in the first variant a POST request whose body has no
    dependencies field, or whose dependencies value is null or not of type
    object (a boolean, a number, a string), is answered 400 with the error
    Invalid dependencies format; no directory is created and no command
    runs. *)
Theorem C2_invalid_dependencies_rejected E req fs0 :
  method req = "POST" ->
  nullish (body req) = false ->
  (property (body req) "dependencies" = VNull \/
   typeof (property (body req) "dependencies") <> TObject) ->
  serve (V1.handler E req) fs0 =
    (Some (Response 400 (VObj [("error", VStr "Invalid dependencies format")])),
     State fs0 []).
Proof.
  intros Hpost Hbody Hdeps.
  assert (Hguard : negb (truthy (property (body req) "dependencies"))
                   || negb (is_object (property (body req) "dependencies")) = true).
  { destruct Hdeps as [->|Hty]; [done|].
    unfold is_object. rewrite bool_decide_eq_false_2 by done. apply orb_true_r. }
  unfold serve, V1.handler, try_catch, bind, destructure.
  rewrite Hpost, Hbody. cbn [String.eqb negb].
  cbv beta iota delta [ret]. rewrite Hguard. reflexivity.
Qed.

Lemma C2_witness :
  serve (V1.handler Sample.clean (Sample.post (VObj []))) Sample.tmp_only =
    (Some (Response 400 (VObj [("error", VStr "Invalid dependencies format")])),
     State Sample.tmp_only []).
Proof.
  apply C2_invalid_dependencies_rejected;
    [reflexivity | reflexivity | right; vm_compute; discriminate].
Defined.

(** Against C2 as stated: the second variant serves a body without a
    dependencies field all the way to 200, in a scratch directory and with
    two npm commands; and the first variant lets an array through, as its
    type is object. *)
Lemma C2_counterexample :
  (let r := serve (V2.handler Sample.clean (Sample.post (VObj []))) Sample.tmp_only in
   status <$> r.1 = Some 200%Z /\
   commands r.2 = [V2.lock_cmd; V2.audit_cmd] /\
   inv_cwd <$> head (log r.2) = Some (scratch Sample.clean)) /\
  (let r := serve (V1.handler Sample.clean
                     (Sample.post (VObj [("dependencies", VArr [])])))
              Sample.tmp_only in
   status <$> r.1 = Some 200%Z /\
   commands r.2 = [V1.lock_cmd; V1.install_cmd; V1.audit_cmd]).
Proof. vm_compute. auto. Qed.

(** ** The manifest *)

(** C3, amended: whenever a request gets past the guard and the temp
    directory exists, the first command runs in the scratch directory and
    finds there a manifest that is the JSON text, indented by two, of: in the
    first variant an object with name temp-package, version 1.0.0 and the
    dependencies as supplied; in the two other variants an object with the
    dependencies as supplied and nothing else. *)
Theorem C3_manifest_written v E req fs0 resp st :
  serve (handler_of v E req) fs0 = (resp, st) ->
  method req = "POST" ->
  nullish (body req) = false ->
  accepts v (property (body req) "dependencies") = true ->
  dir_exists fs0 (tmpdir E) = true ->
  exists inv,
    head (log st) = Some inv /\
    inv_cmd inv = lock_cmd_of v /\
    inv_cwd inv = scratch E /\
    manifest_seen inv =
      JSON_stringify (manifest_of v (property (body req) "dependencies")) 2.
Proof.
  intros Hrun Hpost Hbody Hdeps Htmp.
  destruct v.
  all: run Hrun.
  all: cbn [log head app accepts manifest_of lock_cmd_of] in *.
  all: try (rewrite Hpost in *; discriminate).
  all: try congruence.
  all: try (apply andb_true_iff in Hdeps as [Ht Ho]; rewrite Ht, Ho in *; discriminate).
  all: eexists; repeat split; unfold manifest_seen, scratch; cbn [inv_fs inv_cwd];
    rewrite ?read_write_same; congruence.
Qed.

Lemma C3_witness :
  exists inv,
    head (log (serve (handler_of First Sample.clean Sample.lodash_request)
                 Sample.tmp_only).2) = Some inv /\
    inv_cmd inv = V1.lock_cmd /\
    inv_cwd inv = "/tmp/npm-audit-Ab3dE9" /\
    manifest_seen inv =
      JSON_stringify
        (VObj [("name", VStr "temp-package");
               ("version", VStr "1.0.0");
               ("dependencies", VObj [("lodash", VStr "4.17.15")])]) 2.
Proof.
  apply (C3_manifest_written First Sample.clean Sample.lodash_request Sample.tmp_only
           _ _ (surjective_pairing _));
    reflexivity.
Defined.

(** Against C3 as stated: the manifest of the second variant holds the
    dependencies only, no name and no version. *)
Lemma C3_counterexample :
  let r := serve (V2.handler Sample.clean Sample.lodash_request) Sample.tmp_only in
  let dependencies := property (body Sample.lodash_request) "dependencies" in
  exists inv,
    head (log r.2) = Some inv /\
    manifest_seen inv = JSON_stringify (VObj [("dependencies", dependencies)]) 2 /\
    manifest_seen inv <>
      JSON_stringify (VObj [("name", VStr "temp-package");
                            ("version", VStr "1.0.0");
                            ("dependencies", dependencies)]) 2.
Proof.
  vm_compute. eexists. split; [reflexivity|]. split; [reflexivity|discriminate].
Qed.

(** ** The commands *)

(** C4, amended: a request that gets as far as the audit command has run,
    in this order and nothing else, three commands in the first variant
    (lockfile, install with scripts off, audit) and two in the other variants
    (lockfile, audit). *)
Theorem C4_commands_of_a_completed_pipeline v E req fs0 resp st :
  serve (handler_of v E req) fs0 = (resp, st) ->
  In (audit_cmd_of v) (commands st) ->
  commands st = pipeline_of v.
Proof.
  intros Hrun Hin.
  destruct v.
  all: run Hrun.
  all: cbn in Hin |- *; try reflexivity.
  all: intuition discriminate.
Qed.

Lemma C4_witness :
  commands (serve (handler_of Third Sample.vulnerable Sample.lodash_request)
              Sample.tmp_only).2
    = ["npx npm install --package-lock-only --offline";
       "npx npm audit --json --omit=dev"].
Proof.
  apply (C4_commands_of_a_completed_pipeline Third Sample.vulnerable
           Sample.lodash_request Sample.tmp_only _ _ (surjective_pairing _)).
  vm_compute. auto.
Defined.

(** Against C4 as stated: a successful request to the first variant runs
    three commands, an install between the lockfile step and the audit. *)
Lemma C4_counterexample :
  let r := serve (V1.handler Sample.clean Sample.lodash_request) Sample.tmp_only in
  status <$> r.1 = Some 200%Z /\
  commands r.2 =
    ["npm install --package-lock-only --ignore-scripts";
     "npm install --ignore-scripts";
     "npm audit --json --omit=dev"] /\
  length (commands r.2) <> 2%nat.
Proof. vm_compute. repeat split. discriminate. Qed.

(** ** The exit status of the audit *)

(** In every variant the response, the file system left behind and the
    commands run are those of the world in which the audit command exits
    with status zero and prints the same. *)
Lemma audit_exit_status_forgotten v E req fs0 :
  observe (serve (handler_of v E req) fs0) =
  observe (serve (handler_of v (with_exit_code_ignored (audit_cmd_of v) E) req) fs0).
Proof.
  destruct (serve (handler_of v E req) fs0) as [r1 s1] eqn:H1.
  destruct (serve (handler_of v (with_exit_code_ignored (audit_cmd_of v) E) req) fs0)
    as [r2 s2] eqn:H2.
  destruct v.
  all: run H1.
  all: run H2.
  all: reflexivity.
Qed.

(** C5: when the audit command exits with a non-zero status, the request
    goes on with the stdout and stderr carried by the error. The stdout is
    parsed: if it does not parse, the response is the 500 of the parsing
    step, with that stdout and stderr in it; if it parses, the response is
    what the report gives, the 200 with its records or the 500 of the outer
    catch when normalising throws. Response, file system and commands are
    those of the world in which the audit exits with status zero and prints
    the same. *)
Theorem C5_audit_exit_status_ignored v E req fs0 resp st inv e :
  serve (handler_of v E req) fs0 = (resp, st) ->
  last (log st) = Some inv ->
  inv_cmd inv = audit_cmd_of v ->
  inv_outcome inv = Rejected e ->
  match JSON_parse E (err_stdout e) with
  | inl parseError =>
      resp = Some (Response 500
               (VObj [("error", VStr "Failed to parse npm audit output");
                      ("details", VStr (exn_message parseError));
                      ((capture_keys v).1, VStr (err_stdout e));
                      ((capture_keys v).2, VStr (err_stderr e))]))
  | inr auditOutput =>
      match result_of (respond_with_findings auditOutput) with
      | Return answer => resp = Some answer
      | Throw error =>
          resp = Some (Response 500
                   (VObj [("error", VStr "Failed to perform npm audit");
                          ("details", VStr (exn_message error));
                          ("stack", VStr (stack_of E error))]))
      | Normal _ => False
      end
  end /\
  observe (resp, st) =
    observe (serve (handler_of v (with_exit_code_ignored (audit_cmd_of v) E) req) fs0).
Proof.
  intros Hrun Hlast Hcmd Hout.
  split; [|rewrite <- Hrun; apply audit_exit_status_forgotten].
  destruct v.
  all: run Hrun.
  all: cbn [log last app] in Hlast; try discriminate Hlast; injection Hlast as <-.
  all: cbn [inv_cmd audit_cmd_of] in Hcmd; try discriminate Hcmd.
  all: cbn [inv_outcome] in Hout; try discriminate Hout; injection Hout as <-.
  all: cbn [capture_keys fst snd err_stdout err_stderr] in *.
  all: match goal with H : JSON_parse _ _ = _ |- _ => rewrite H end.
  all: try match goal with
       | H : result_of (respond_with_findings _) = _ |- _ => rewrite H
       end.
  all: try reflexivity.
  all: match goal with
       | H : result_of (respond_with_findings ?a) = Normal _ |- _ =>
           destruct (respond_with_findings_cases a) as [[? He]|(? & _ & _ & He)];
           rewrite He in H; discriminate
       end.
Qed.

Lemma C5_witness :
  (serve (handler_of First Sample.vulnerable Sample.lodash_request) Sample.tmp_only).1 =
    Some (Response 200
            (VObj [("vulnerabilities", VArr [Sample.lodash_record]);
                   ("metadata", property Sample.lodash_report "metadata")])).
Proof.
  destruct (C5_audit_exit_status_ignored First Sample.vulnerable Sample.lodash_request
              Sample.tmp_only _ _
              (Invocation V1.audit_cmd (scratch Sample.vulnerable)
                 (write_file (path_join (scratch Sample.vulnerable) "package-lock.json") "{}"
                    (write_file (path_join (scratch Sample.vulnerable) "package.json")
                       (Sample.text_of
                          (manifest_of First
                             (property (body Sample.lodash_request) "dependencies")))
                       (make_dir (scratch Sample.vulnerable) Sample.tmp_only)))
                 (Rejected (ExecError "Command failed: npm audit --json --omit=dev"
                              (Sample.text_of Sample.lodash_report) "")))
              (ExecError "Command failed: npm audit --json --omit=dev"
                 (Sample.text_of Sample.lodash_report) "")
              (surjective_pairing _)) as [Hresp _].
  - vm_compute. reflexivity.
  - reflexivity.
  - reflexivity.
  - exact Hresp.
Defined.

(** ** Output that is not JSON *)

(** C6: when the audit command has run and what it printed on stdout does
    not parse, the response is 500 and carries the message of the parse
    error and the raw stdout and stderr (under stdoutAudit and stderrAudit in
    the first variant, stdout and stderr in the others). *)
Theorem C6_unparseable_output v E req fs0 resp st inv parseError :
  serve (handler_of v E req) fs0 = (resp, st) ->
  last (log st) = Some inv ->
  inv_cmd inv = audit_cmd_of v ->
  JSON_parse E (captured_stdout (inv_outcome inv)) = inl parseError ->
  resp = Some (Response 500
    (VObj [("error", VStr "Failed to parse npm audit output");
           ("details", VStr (exn_message parseError));
           ((capture_keys v).1, VStr (captured_stdout (inv_outcome inv)));
           ((capture_keys v).2, VStr (captured_stderr (inv_outcome inv)))])).
Proof.
  intros Hrun Hlast Hcmd Hparse.
  destruct v.
  all: run Hrun.
  all: cbn [log last app] in Hlast; try discriminate Hlast; injection Hlast as <-.
  all: cbn [inv_cmd audit_cmd_of] in Hcmd; try discriminate Hcmd.
  all: cbn [inv_outcome captured_stdout captured_stderr capture_keys fst snd] in *.
  all: congruence.
Qed.

Lemma C6_witness :
  (serve (handler_of First Sample.garbled Sample.lodash_request) Sample.tmp_only).1 =
    Some (Response 500
      (VObj [("error", VStr "Failed to parse npm audit output");
             ("details", VStr "Unexpected token in JSON at position 0");
             ("stdoutAudit", VStr "npm ERR! audit endpoint returned an error");
             ("stderrAudit", VStr "")])).
Proof.
  erewrite (C6_unparseable_output First Sample.garbled Sample.lodash_request
              Sample.tmp_only _ _ _ _ (surjective_pairing _));
    cycle 1.
  - vm_compute. reflexivity.
  - reflexivity.
  - vm_compute. reflexivity.
  - reflexivity.
Defined.

(** ** Normalisation *)

(** C7, where the code parts from it: for a finding whose fixAvailable is
    the bare flag true, as npm prints it for a fix that needs no major
    upgrade, the recommendation is neither a suggested fix nor the fallback
    text: the name and the version are read off the boolean and come out as
    the word undefined. *)
Theorem C7_bare_fix_flag name info st :
  nullish info = false ->
  via_info info <> VNull ->
  property info "fixAvailable" = VBool true ->
  exists record,
    normalize_entry (name, info) st = (Normal record, st) /\
    property record "recommendation" = VStr "Upgrade undefined to version undefined".
Proof.
  intros Hinfo Hvia Hfix. eexists. split.
  - apply normalize_entry_run; [done|done|]. unfold fix_has_text. by rewrite Hfix.
  - cbn. rewrite Hfix. reflexivity.
Qed.

Lemma C7_witness :
  exists record,
    normalize_entry ("lodash", Sample.lodash_finding) (State Sample.tmp_only [])
      = (Normal record, State Sample.tmp_only []) /\
    property record "recommendation" = VStr "Upgrade undefined to version undefined".
Proof.
  apply (C7_bare_fix_flag "lodash" Sample.lodash_finding);
    [reflexivity | vm_compute; discriminate | reflexivity].
Defined.

(** ** A clean report *)

Lemma respond_clean auditOutput :
  reports_no_vulnerabilities auditOutput = true ->
  result_of (respond_with_findings auditOutput) =
    Return (Response 200 (VObj [("vulnerabilities", VArr []);
                                ("metadata", property auditOutput "metadata")])).
Proof.
  destruct auditOutput as [| | | | | |props]; try discriminate.
  unfold reports_no_vulnerabilities, result_of, respond_with_findings, bind, get.
  cbn [nullish property].
  destruct (lookup_prop "vulnerabilities" props) as [| | | | | |[|]]; try discriminate;
    reflexivity.
Qed.

(** C8: when the audit command has run and its output parses to a report
    whose vulnerabilities object is empty or absent and whose metadata total
    is zero, the response is 200, its vulnerabilities list is empty, its
    metadata is the metadata of the report unchanged, and so its total is
    that zero. *)
Theorem C8_no_vulnerabilities v E req fs0 resp st inv auditOutput n :
  serve (handler_of v E req) fs0 = (resp, st) ->
  last (log st) = Some inv ->
  inv_cmd inv = audit_cmd_of v ->
  JSON_parse E (captured_stdout (inv_outcome inv)) = inr auditOutput ->
  reports_no_vulnerabilities auditOutput = true ->
  summary_total auditOutput = VNum n ->
  mantissa n = 0%Z ->
  exists payload,
    resp = Some (Response 200 payload) /\
    property payload "vulnerabilities" = VArr [] /\
    property payload "metadata" = property auditOutput "metadata" /\
    summary_total payload = VNum n.
Proof.
  intros Hrun Hlast Hcmd Hparse Hclean Htotal _.
  exists (VObj [("vulnerabilities", VArr []);
                ("metadata", property auditOutput "metadata")]).
  split; [|by repeat split].
  destruct v.
  all: run Hrun.
  all: cbn [log last app] in Hlast; try discriminate Hlast; injection Hlast as <-.
  all: cbn [inv_cmd audit_cmd_of] in Hcmd; try discriminate Hcmd.
  all: cbn [inv_outcome captured_stdout captured_stderr] in *.
  all: rewrite Hparse in *; simplify_eq.
  all: rewrite (respond_clean _ Hclean) in *; by simplify_eq.
Qed.

Lemma C8_witness :
  exists payload,
    (serve (handler_of Second Sample.clean Sample.lodash_request) Sample.tmp_only).1
      = Some (Response 200 payload) /\
    property payload "vulnerabilities" = VArr [] /\
    property payload "metadata" = property Sample.clean_report "metadata" /\
    summary_total payload = VNum (Num 0 0).
Proof.
  eapply (C8_no_vulnerabilities Second Sample.clean Sample.lodash_request
            Sample.tmp_only _ _ _ Sample.clean_report (Num 0 0) (surjective_pairing _)).
  - vm_compute. reflexivity.
  - reflexivity.
  - vm_compute. reflexivity.
  - reflexivity.
  - reflexivity.
  - reflexivity.
Defined.

(** * The reports *)

Lemma string_app_cons x (a b : string) : String x a +:+ b = String x (a +:+ b).
Proof. reflexivity. Qed.

Lemma string_app_assoc (a b c : string) : (a +:+ b) +:+ c = a +:+ (b +:+ c).
Proof.
  induction a as [|x a IH]; [done|]. by rewrite !string_app_cons, IH.
Qed.

Lemma string_app_nil_r (a : string) : a +:+ "" = a.
Proof. induction a as [|x a IH]; [done|]. by rewrite string_app_cons, IH. Qed.

Lemma concat_cons (s : string) (l : list string) :
  String.concat "" (s :: l) = s +:+ String.concat "" l.
Proof. destruct l; simpl; [by rewrite string_app_nil_r|done]. Qed.

Lemma ToString_text v : has_string_form v = true -> ToString v = Some (to_string v).
Proof. intros H. unfold ToString. by rewrite H. Qed.

Lemma has_string_form_or_else v d :
  has_string_form v = true -> has_string_form (or_else v (VStr d)) = true.
Proof. intros H. unfold or_else. by destruct (truthy v). Qed.

(** What [printable] says, cell by cell. *)
Lemma printable_cells result :
  Dashboard.printable result = true ->
  nullish result = false /\
  has_string_form (property result "name") = true /\
  has_string_form (property result "version") = true /\
  has_string_form (property result "vulnerability") = true /\
  has_string_form (property result "severity") = true /\
  has_string_form (property result "cvssScore") = true /\
  has_string_form (property result "recommendation") = true.
Proof.
  unfold Dashboard.printable. cbn [forallb]. rewrite !andb_true_iff, negb_true_iff.
  tauto.
Qed.

(** A [forEach] that appends is a concatenation, as long as every row can
    be printed. *)
Lemma fold_left_append {A} (f : A -> option string) (g : A -> string) l init :
  Forall (fun x => f x = Some (g x)) l ->
  fold_left (fun acc x => acc ← acc; row ← f x; Some (acc +:+ row)) l (Some init)
    = Some (init +:+ String.concat "" (g <$> l)).
Proof.
  intros Hl. revert init. induction Hl as [|x l Hx _ IH]; intros init.
  - simpl. by rewrite string_app_nil_r.
  - cbn [fold_left]. rewrite Hx. cbn [mbind option_bind].
    rewrite IH, fmap_cons, concat_cons. by rewrite string_app_assoc.
Qed.

(** C9: when every record can be printed (each cell has a text), the
    Markdown report is the title, the six lines of the summary, the header
    and the separator of the table, and then one line per record, in list
    order, made of the six texts of the record between bars, and nothing
    else; the PDF document has two tables, the summary under Severity and
    Count, and the details under the six column headers, whose body is one
    row per record, in list order, made of the six cells of the record, and
    nothing else.  Without results (null) both have no row. *)
Theorem C9_one_row_per_record c :
  Forall (fun result => Dashboard.printable result = true)
    (default [] (Dashboard.auditResults c)) ->
  Dashboard.generateMarkdownReport c =
    Some ("# NPM Audit Report" +:+ newline +:+ newline
          +:+ "## Vulnerability Summary" +:+ newline +:+ newline
          +:+ "- Total: " +:+ num_to_string (Dashboard.count_or_zero c Dashboard.total)
          +:+ newline
          +:+ "- Critical: " +:+ num_to_string (Dashboard.count_or_zero c Dashboard.critical)
          +:+ newline
          +:+ "- High: " +:+ num_to_string (Dashboard.count_or_zero c Dashboard.high)
          +:+ newline
          +:+ "- Moderate: " +:+ num_to_string (Dashboard.count_or_zero c Dashboard.moderate)
          +:+ newline
          +:+ "- Low: " +:+ num_to_string (Dashboard.count_or_zero c Dashboard.low)
          +:+ newline
          +:+ "- Info: " +:+ num_to_string (Dashboard.count_or_zero c Dashboard.info)
          +:+ newline +:+ newline
          +:+ "## Vulnerability Details" +:+ newline +:+ newline
          +:+ "| Package | Version | Vulnerability | Severity | CVSS Score | Recommendation |"
          +:+ newline
          +:+ "|---------|---------|---------------|----------|------------|----------------|"
          +:+ newline
          +:+ String.concat ""
                ((fun result =>
                    "| " +:+ to_string (property result "name")
                      +:+ " | " +:+ to_string (property result "version")
                      +:+ " | " +:+ to_string (property result "vulnerability")
                      +:+ " | " +:+ to_string (property result "severity")
                      +:+ " | "
                      +:+ to_string (or_else (property result "cvssScore") (VStr "N/A"))
                      +:+ " | " +:+ to_string (property result "recommendation")
                      +:+ " |" +:+ newline)
                   <$> default [] (Dashboard.auditResults c))) /\
  exists doc summary details,
    Dashboard.generatePDFReport c = Some doc /\
    Dashboard.tables doc = [summary; details] /\
    Dashboard.thead summary = [["Severity"; "Count"]] /\
    Dashboard.thead details =
      [["Package"; "Version"; "Vulnerability"; "Severity"; "CVSS Score"; "Recommendation"]] /\
    Dashboard.tbody details =
      (fun result =>
         [property result "name";
          property result "version";
          property result "vulnerability";
          property result "severity";
          or_else (if nullish (property result "cvssScore") then VUndefined
                   else VStr (to_string (property result "cvssScore")))
                  (VStr "N/A");
          property result "recommendation"])
        <$> default [] (Dashboard.auditResults c) /\
    length (Dashboard.tbody details) = length (default [] (Dashboard.auditResults c)).
Proof.
  intros Hall. split.
  - unfold Dashboard.generateMarkdownReport, Dashboard.summary_line.
    destruct (Dashboard.auditResults c) as [results|]; cbn [default] in *.
    + erewrite fold_left_append.
      { by rewrite !string_app_assoc. }
      eapply Forall_impl; [exact Hall|].
      intros r (Hr & Hn & Hv & Hu & Hs & Hc & Hm)%printable_cells.
      unfold Dashboard.markdown_row. rewrite Hr.
      rewrite !ToString_text by auto using has_string_form_or_else.
      reflexivity.
    + cbn [fmap list_fmap String.concat]. by rewrite !string_app_assoc, string_app_nil_r.
  - assert (Hdata : Dashboard.tableData c =
      Some ((fun result =>
               [property result "name";
                property result "version";
                property result "vulnerability";
                property result "severity";
                or_else (if nullish (property result "cvssScore") then VUndefined
                         else VStr (to_string (property result "cvssScore")))
                        (VStr "N/A");
                property result "recommendation"])
              <$> default [] (Dashboard.auditResults c))).
    { unfold Dashboard.tableData.
      destruct (Dashboard.auditResults c) as [results|]; cbn [default] in *; [|done].
      apply mapM_Some, Forall2_fmap_r, Forall_Forall2_diag.
      eapply Forall_impl; [exact Hall|].
      intros r (Hr & _ & _ & _ & _ & Hc & _)%printable_cells.
      unfold Dashboard.pdf_row, Dashboard.toString_opt, compose. rewrite Hr.
      destruct (nullish (property r "cvssScore")); [reflexivity|].
      by rewrite ToString_text. }
    unfold Dashboard.generatePDFReport. rewrite Hdata. cbn [mbind option_bind].
    do 3 eexists. split; [reflexivity|]. split; [reflexivity|].
    cbn [Dashboard.thead Dashboard.tbody]. repeat split. by rewrite length_fmap.
Qed.

Lemma C9_witness :
  Dashboard.generateMarkdownReport Sample.dashboard =
    Some ("# NPM Audit Report" +:+ newline +:+ newline
          +:+ "## Vulnerability Summary" +:+ newline +:+ newline
          +:+ "- Total: 2" +:+ newline
          +:+ "- Critical: 0" +:+ newline
          +:+ "- High: 1" +:+ newline
          +:+ "- Moderate: 0" +:+ newline
          +:+ "- Low: 1" +:+ newline
          +:+ "- Info: 0" +:+ newline +:+ newline
          +:+ "## Vulnerability Details" +:+ newline +:+ newline
          +:+ "| Package | Version | Vulnerability | Severity | CVSS Score | Recommendation |"
          +:+ newline
          +:+ "|---------|---------|---------------|----------|------------|----------------|"
          +:+ newline
          +:+ "| lodash | <4.17.21 | Command Injection in lodash | high | 7.2 | Upgrade undefined to version undefined |"
          +:+ newline
          +:+ "| debug | <2.6.9 | undefined | low | N/A | Upgrade debug to version 2.6.9 |"
          +:+ newline) /\
  exists doc summary details,
    Dashboard.generatePDFReport Sample.dashboard = Some doc /\
    Dashboard.tables doc = [summary; details] /\
    Dashboard.tbody details =
      [[VStr "lodash"; VStr "<4.17.21"; VStr "Command Injection in lodash"; VStr "high";
        VStr "7.2"; VStr "Upgrade undefined to version undefined"];
       [VStr "debug"; VStr "<2.6.9"; VUndefined; VStr "low";
        VStr "0"; VStr "Upgrade debug to version 2.6.9"]].
Proof.
  destruct (C9_one_row_per_record Sample.dashboard) as (Hmd & doc & s & d & Hpdf & Ht & _ & _ & Hb & _).
  - repeat constructor.
  - split; [rewrite Hmd; vm_compute; reflexivity|].
    exists doc, s, d. split; [exact Hpdf|]. split; [exact Ht|]. rewrite Hb. reflexivity.
Defined.

Lemma strip_zeros_zero k : strip_zeros 0 k = (0%Z, 0%nat).
Proof. induction k as [|k IH]; [done|]. cbn. exact IH. Qed.

Lemma num_to_string_zero k : num_to_string (Num 0 k) = "0".
Proof. unfold num_to_string. cbn [mantissa decimals Z.abs]. by rewrite strip_zeros_zero. Qed.

(** C10: a record whose CVSS score is zero has N/A in the score cell of its
    Markdown row (the other five cells being the texts of its name, version,
    vulnerability, severity and recommendation) and N/A as its cell in the
    CVSS Score column of the table, and the text 0 in the fifth cell of its
    row in the PDF details table. *)
Theorem C10_zero_score_rendering r n name version vulnerability severity recommendation :
  property r "cvssScore" = VNum n ->
  mantissa n = 0%Z ->
  ToString (property r "name") = Some name ->
  ToString (property r "version") = Some version ->
  ToString (property r "vulnerability") = Some vulnerability ->
  ToString (property r "severity") = Some severity ->
  ToString (property r "recommendation") = Some recommendation ->
  Dashboard.markdown_row r =
    Some ("| " +:+ name +:+ " | " +:+ version +:+ " | " +:+ vulnerability +:+ " | "
            +:+ severity +:+ " | " +:+ "N/A" +:+ " | " +:+ recommendation
            +:+ " |" +:+ newline) /\
  Dashboard.cvssScore_cell r = Some (Dashboard.CvssText "N/A") /\
  Dashboard.pdf_row r =
    Some [property r "name"; property r "version"; property r "vulnerability";
          property r "severity"; VStr "0"; property r "recommendation"].
Proof.
  intros Hs Hz Hn Hv Hu Hse Hrec. destruct n as [m k]. cbn in Hz. subst m.
  assert (Hr : nullish r = false) by (by destruct r).
  unfold Dashboard.markdown_row, Dashboard.cvssScore_cell, Dashboard.pdf_row,
    Dashboard.toString_opt.
  rewrite Hr, Hs, Hn, Hv, Hu, Hse, Hrec.
  repeat split. cbn. by rewrite num_to_string_zero.
Qed.

Lemma C10_witness :
  Dashboard.markdown_row Sample.unscored_record =
    Some ("| debug | <2.6.9 | undefined | low | N/A | Upgrade debug to version 2.6.9 |"
            +:+ newline) /\
  Dashboard.cvssScore_cell Sample.unscored_record = Some (Dashboard.CvssText "N/A") /\
  Dashboard.pdf_row Sample.unscored_record =
    Some [VStr "debug"; VStr "<2.6.9"; VUndefined; VStr "low"; VStr "0";
          VStr "Upgrade debug to version 2.6.9"].
Proof.
  exact (C10_zero_score_rendering Sample.unscored_record (Num 0 1)
           "debug" "<2.6.9" "undefined" "low" "Upgrade debug to version 2.6.9"
           eq_refl eq_refl eq_refl eq_refl eq_refl eq_refl eq_refl).
Defined.

(** * More on the endpoint *)

(** A request that is not a POST is answered 405, whatever its body and in
    every variant, and touches nothing. *)
Theorem other_methods_not_allowed v E req fs0 :
  method req <> "POST" ->
  serve (handler_of v E req) fs0 =
    (Some (Response 405 (VObj [("message", VStr "Method Not Allowed")])), State fs0 []).
Proof.
  intros Hm. apply String.eqb_neq in Hm.
  destruct v; unfold serve, handler_of, V1.handler, V2.handler, V3.handler;
    rewrite Hm; reflexivity.
Qed.

Lemma other_methods_not_allowed_witness :
  serve (handler_of Second Sample.clean (Request "GET" VUndefined)) Sample.tmp_only =
    (Some (Response 405 (VObj [("message", VStr "Method Not Allowed")])),
     State Sample.tmp_only []).
Proof. apply other_methods_not_allowed. vm_compute. discriminate. Defined.

(** A POST without a body (null or undefined) makes the destructuring throw:
    every variant answers 500 through its outer catch, with the message and
    the stack of the TypeError, and touches nothing. *)
Theorem missing_body_is_a_server_error v E req fs0 :
  method req = "POST" ->
  nullish (body req) = true ->
  exists error,
    error = TypeError ("Cannot destructure property 'dependencies' of 'req.body' as it is "
                         +:+ describe_nullish (body req) +:+ ".") /\
    serve (handler_of v E req) fs0 =
      (Some (Response 500 (VObj [("error", VStr "Failed to perform npm audit");
                                 ("details", VStr (exn_message error));
                                 ("stack", VStr (stack_of E error))])),
       State fs0 []).
Proof.
  intros Hm Hb. eexists. split; [reflexivity|].
  destruct v; unfold serve, handler_of, V1.handler, V2.handler, V3.handler,
    try_catch, bind, destructure, on_error;
    rewrite Hm, Hb; reflexivity.
Qed.

Lemma missing_body_is_a_server_error_witness :
  (serve (handler_of First Sample.clean (Sample.post VNull)) Sample.tmp_only).1 =
    Some (Response 500
      (VObj [("error", VStr "Failed to perform npm audit");
             ("details",
              VStr "Cannot destructure property 'dependencies' of 'req.body' as it is null.");
             ("stack",
              VStr "Error: Cannot destructure property 'dependencies' of 'req.body' as it is null.")])).
Proof.
  destruct (missing_body_is_a_server_error First Sample.clean (Sample.post VNull)
              Sample.tmp_only eq_refl eq_refl) as (error & -> & ->).
  reflexivity.
Defined.

(** A request during which no command ran has left the file system as it
    found it. *)
Theorem nothing_run_nothing_written v E req fs0 resp st :
  serve (handler_of v E req) fs0 = (resp, st) ->
  commands st = [] ->
  fs st = fs0.
Proof.
  intros Hrun Hnone.
  destruct v.
  all: run Hrun.
  all: cbn [commands log fs fmap list_fmap app] in *; try reflexivity.
  all: discriminate Hnone.
Qed.

Lemma nothing_run_nothing_written_witness :
  fs (serve (handler_of Third Sample.clean (Sample.post VNull)) Sample.tmp_only).2
    = Sample.tmp_only.
Proof.
  apply (nothing_run_nothing_written Third Sample.clean (Sample.post VNull)
           Sample.tmp_only _ _ (surjective_pairing _)).
  reflexivity.
Defined.

(** Once the commands it starts have exited, and [env] describes no other
    world, a request is answered: no exception escapes the handler and no
    path through it ends without a response, whose status is 200, 400, 405
    or 500. *)
Theorem answered_when_npm_exits v E req fs0 :
  exists resp,
    (serve (handler_of v E req) fs0).1 = Some resp /\
    (status resp = 200 \/ status resp = 400 \/ status resp = 405 \/ status resp = 500)%Z.
Proof.
  destruct (serve (handler_of v E req) fs0) as [r st] eqn:Hrun.
  destruct v.
  all: run Hrun.
  all: cbn [fst].
  all: try match goal with
       | H : result_of (respond_with_findings ?a) = _ |- _ =>
           destruct (respond_with_findings_cases a) as [[? He]|(? & _ & _ & He)];
           rewrite He in H; simplify_eq
       end.
  all: eexists; split; [reflexivity|cbn; tauto].
Qed.

(** Every response that is not 200 or 405 names its cause in an error
    field: 400 for the guard of the first variant, 500 with details for the
    three failures. *)
Theorem error_responses_name_their_cause v E req fs0 resp :
  (serve (handler_of v E req) fs0).1 = Some resp ->
  status resp <> 200%Z ->
  status resp <> 405%Z ->
  (v = First /\ status resp = 400%Z /\
   json resp = VObj [("error", VStr "Invalid dependencies format")]) \/
  (status resp = 500%Z /\
   exists details,
     property (json resp) "details" = VStr details /\
     (property (json resp) "error" = VStr "Failed to create package-lock.json" \/
      property (json resp) "error" = VStr "Failed to parse npm audit output" \/
      property (json resp) "error" = VStr "Failed to perform npm audit")).
Proof.
  destruct (serve (handler_of v E req) fs0) as [r st] eqn:Hrun.
  cbn [fst]. intros Hresp H200 H405.
  destruct v.
  all: run Hrun.
  all: try match goal with
       | H : result_of (respond_with_findings ?a) = _ |- _ =>
           destruct (respond_with_findings_cases a) as [[? He]|(? & _ & _ & He)];
           rewrite He in H; simplify_eq
       end.
  all: simplify_eq; cbn [status json] in *; try done.
  all: try (left; by repeat split).
  all: right; split; [done|]; eexists; split; [reflexivity|]; cbn; tauto.
Qed.

Lemma error_responses_name_their_cause_witness :
  exists resp,
    (serve (handler_of Third Sample.garbled Sample.lodash_request) Sample.tmp_only).1
      = Some resp /\
    status resp = 500%Z /\
    property (json resp) "error" = VStr "Failed to parse npm audit output".
Proof.
  eexists. split; [vm_compute; reflexivity|].
  destruct (error_responses_name_their_cause Third Sample.garbled Sample.lodash_request
              Sample.tmp_only _ eq_refl) as [(Hv & _)|(Hs & _)];
    [vm_compute; discriminate | vm_compute; discriminate | discriminate Hv |].
  split; [exact Hs|reflexivity].
Defined.


(** ** The scratch directory *)

Lemma remove_tree_dir p q f :
  q = p \/ under p q = true -> dir_exists (remove_tree p f) q = false.
Proof.
  intros H. unfold dir_exists, remove_tree. cbn [dirs].
  apply bool_decide_eq_false. rewrite elem_of_filter. unfold keeps.
  intros [[Hne Hu] _]. destruct H as [->|H]; [done|congruence].
Qed.

Lemma remove_tree_file p q f :
  q = p \/ under p q = true -> read_file (remove_tree p f) q = None.
Proof.
  intros H. unfold read_file, remove_tree. cbn [files].
  apply map_lookup_filter_None. right. intros x _ [Hne Hu]. cbn [fst] in *.
  destruct H as [->|H]; [done|]. rewrite H in Hu. discriminate.
Qed.

Lemma remove_tree_keeps_dir p q f :
  q <> p -> under p q = false -> dir_exists (remove_tree p f) q = dir_exists f q.
Proof.
  intros Hne Hu. unfold dir_exists, remove_tree. cbn [dirs].
  apply bool_decide_ext. rewrite elem_of_filter. unfold keeps. tauto.
Qed.

Lemma remove_tree_keeps_file p q f :
  q <> p -> under p q = false -> read_file (remove_tree p f) q = read_file f q.
Proof.
  intros Hne Hu. unfold read_file, remove_tree. cbn [files].
  destruct (files f !! q) as [x|] eqn:Hq.
  - apply map_lookup_filter_Some. split; [done|]. by split.
  - apply map_lookup_filter_None. by left.
Qed.

(** Once the audit command has run, the request ends with the scratch
    directory and everything below it gone, whatever npm put there and
    whatever the response; the rest of the file system is as the audit
    command left it. *)
Theorem scratch_removed_after_the_audit v E req fs0 resp st :
  serve (handler_of v E req) fs0 = (resp, st) ->
  In (audit_cmd_of v) (commands st) ->
  exists inv,
    last (log st) = Some inv /\
    inv_cmd inv = audit_cmd_of v /\
    forall q,
      if bool_decide (q = scratch E) || under (scratch E) q
      then dir_exists (fs st) q = false /\ read_file (fs st) q = None
      else dir_exists (fs st) q
             = dir_exists (exec E (audit_cmd_of v) (scratch E) (inv_fs inv)).2 q /\
           read_file (fs st) q
             = read_file (exec E (audit_cmd_of v) (scratch E) (inv_fs inv)).2 q.
Proof.
  intros Hrun Hin.
  assert (Hfs : exists inv,
    last (log st) = Some inv /\ inv_cmd inv = audit_cmd_of v /\
    fs st = remove_tree (scratch E)
              (exec E (audit_cmd_of v) (scratch E) (inv_fs inv)).2).
  { destruct v.
    all: run Hrun.
    all: cbn in Hin; try tauto; try (intuition discriminate).
    all: eexists; split; [reflexivity|]; split; [reflexivity|].
    all: cbn [fs inv_fs audit_cmd_of]; unfold scratch.
    all: match goal with H : exec _ _ _ _ = _ |- _ => try (by rewrite H) end. }
  destruct Hfs as (inv & Hlast & Hcmd & Hfs). exists inv. repeat split; try done.
  intros q. rewrite Hfs.
  destruct (bool_decide (q = scratch E)) eqn:Hq; cbn [orb].
  - apply bool_decide_eq_true in Hq.
    split; [apply remove_tree_dir|apply remove_tree_file]; by left.
  - apply bool_decide_eq_false in Hq.
    destruct (under (scratch E) q) eqn:Hu.
    + split; [apply remove_tree_dir|apply remove_tree_file]; by right.
    + split; [by apply remove_tree_keeps_dir|by apply remove_tree_keeps_file].
Qed.

Lemma scratch_removed_after_the_audit_witness :
  let st := (serve (handler_of First Sample.vulnerable Sample.lodash_request)
               Sample.tmp_only).2 in
  exists inv,
    last (log st) = Some inv /\
    inv_cmd inv = "npm audit --json --omit=dev" /\
    forall q,
      if bool_decide (q = "/tmp/npm-audit-Ab3dE9") || under "/tmp/npm-audit-Ab3dE9" q
      then dir_exists (fs st) q = false /\ read_file (fs st) q = None
      else dir_exists (fs st) q
             = dir_exists (exec Sample.vulnerable "npm audit --json --omit=dev"
                             "/tmp/npm-audit-Ab3dE9" (inv_fs inv)).2 q /\
           read_file (fs st) q
             = read_file (exec Sample.vulnerable "npm audit --json --omit=dev"
                            "/tmp/npm-audit-Ab3dE9" (inv_fs inv)).2 q.
Proof.
  apply (scratch_removed_after_the_audit First Sample.vulnerable Sample.lodash_request
           Sample.tmp_only _ _ (surjective_pairing _)).
  vm_compute. auto.
Defined.

Lemma dir_exists_after_write p q c f :
  dir_exists (write_file q c (make_dir p f)) p = true.
Proof.
  unfold dir_exists, write_file, make_dir. cbn [dirs].
  apply bool_decide_eq_true. set_solver.
Qed.

(** A request that stops at the lockfile command is answered 500 and
    removes nothing: the file system is the one the lockfile command left,
    which found the scratch directory in place. The details of the
    response are the message of what stopped it: the error of the command
    when it failed, or, in the first and third variant, the error of reading
    a package-lock.json that the command did not leave. The second variant
    answers from its outer catch, with the stack of that error as well. *)
Theorem stopped_at_the_lockfile v E req fs0 resp st inv :
  serve (handler_of v E req) fs0 = (resp, st) ->
  last (log st) = Some inv ->
  inv_cmd inv = lock_cmd_of v ->
  commands st = [lock_cmd_of v] /\
  dir_exists (inv_fs inv) (scratch E) = true /\
  fs st = (exec E (lock_cmd_of v) (scratch E) (inv_fs inv)).2 /\
  exists error,
    match inv_outcome inv with
    | Rejected e => error = ChildProcessError e
    | Resolved _ =>
        v <> Second /\
        read_file (fs st) (path_join (scratch E) "package-lock.json") = None /\
        error = SystemError ("ENOENT: no such file or directory, open '"
                               +:+ path_join (scratch E) "package-lock.json" +:+ "'")
    end /\
    resp = Some (Response 500
             (match v with
              | Second =>
                  VObj [("error", VStr "Failed to perform npm audit");
                        ("details", VStr (exn_message error));
                        ("stack", VStr (stack_of E error))]
              | _ =>
                  VObj [("error", VStr "Failed to create package-lock.json");
                        ("details", VStr (exn_message error))]
              end)).
Proof.
  intros Hrun Hlast Hcmd.
  destruct v.
  all: run Hrun.
  all: cbn [log last app] in Hlast; try discriminate Hlast; injection Hlast as <-.
  all: cbn [inv_cmd lock_cmd_of] in Hcmd; try discriminate Hcmd.
  all: cbn [commands log fmap list_fmap app inv_cmd inv_fs inv_outcome fs lock_cmd_of];
    unfold scratch.
  all: repeat split; try apply dir_exists_after_write;
    try match goal with H : exec _ _ _ _ = _ |- _ => by rewrite H end.
  all: eexists; split;
    [first [reflexivity | split; [done|]; split; [eassumption|reflexivity]]|reflexivity].
Qed.

Lemma stopped_at_the_lockfile_witness :
  let r := serve (handler_of Second Sample.unresolvable Sample.lodash_request)
             Sample.tmp_only in
  commands r.2 = ["npm i --package-lock-only"] /\
  r.1 = Some (Response 500
           (VObj [("error", VStr "Failed to perform npm audit");
                  ("details", VStr "Command failed: npm i --package-lock-only");
                  ("stack", VStr "Error: Command failed: npm i --package-lock-only")])).
Proof.
  cbv zeta.
  destruct (stopped_at_the_lockfile Second Sample.unresolvable Sample.lodash_request
              Sample.tmp_only _ _ _ (surjective_pairing _) eq_refl eq_refl)
    as (Hcmds & _ & _ & error & Herror & Hresp).
  split; [exact Hcmds|]. rewrite Hresp. vm_compute in Herror. rewrite Herror. reflexivity.
Defined.

(** ** From the request to the audit *)

(** The audit is reached: a POST whose body gets past the guard, on a
    file system that has the temp directory, and whose lockfile command
    exits with status zero (and, in the first and third variant, leaves a
    package-lock.json in the scratch directory) runs the whole pipeline.
    The audit command is the last to run, in the scratch directory, on the
    file system the command before it left. *)
Theorem audit_is_reached v E req fs0 locked fs1 :
  method req = "POST" ->
  nullish (body req) = false ->
  accepts v (property (body req) "dependencies") = true ->
  dir_exists fs0 (tmpdir E) = true ->
  exec E (lock_cmd_of v) (scratch E)
    (write_file (path_join (scratch E) "package.json")
       (default "" (JSON_stringify (manifest_of v (property (body req) "dependencies")) 2))
       (make_dir (scratch E) fs0))
    = (Resolved locked, fs1) ->
  (v <> Second -> is_Some (read_file fs1 (path_join (scratch E) "package-lock.json"))) ->
  exists inv,
    commands (serve (handler_of v E req) fs0).2 = pipeline_of v /\
    last (log (serve (handler_of v E req) fs0).2) = Some inv /\
    inv_cmd inv = audit_cmd_of v /\
    inv_cwd inv = scratch E /\
    inv_fs inv =
      match v with
      | First => (exec E V1.install_cmd (scratch E) fs1).2
      | _ => fs1
      end.
Proof.
  intros Hpost Hbody Hdeps Htmp Hlock Hfile.
  destruct (serve (handler_of v E req) fs0) as [resp st] eqn:Hrun.
  unfold scratch in *.
  destruct v.
  all: run Hrun.
  all: cbn [accepts manifest_of lock_cmd_of] in *.
  all: try (rewrite Hpost in *; discriminate).
  all: try congruence.
  all: try (apply andb_true_iff in Hdeps as [Ht Ho]; rewrite Ht, Ho in *; discriminate).
  all: match goal with H : JSON_stringify _ _ = Some _ |- _ => rewrite H in Hlock end.
  all: cbn [default from_option id] in Hlock.
  all: match goal with H : exec _ _ _ _ = _ |- _ => rewrite Hlock in H; try discriminate H end.
  all: simplify_eq.
  all: try (destruct Hfile as [? Hsome]; [done|congruence]).
  all: eexists; cbn [snd commands log fmap list_fmap app last inv_cmd inv_cwd inv_fs
                     pipeline_of audit_cmd_of].
  all: repeat split;
    try match goal with H : exec _ V1.install_cmd _ _ = _ |- _ => by rewrite H end.
Qed.

Lemma audit_is_reached_witness :
  exists inv,
    commands (serve (handler_of First Sample.garbled Sample.lodash_request)
                Sample.tmp_only).2
      = ["npm install --package-lock-only --ignore-scripts";
         "npm install --ignore-scripts";
         "npm audit --json --omit=dev"] /\
    last (log (serve (handler_of First Sample.garbled Sample.lodash_request)
                 Sample.tmp_only).2) = Some inv /\
    inv_cmd inv = "npm audit --json --omit=dev" /\
    inv_cwd inv = "/tmp/npm-audit-Ab3dE9".
Proof.
  destruct (audit_is_reached First Sample.garbled Sample.lodash_request Sample.tmp_only
              (ExecOk "" "")
              (write_file "/tmp/npm-audit-Ab3dE9/package-lock.json" "{}"
                 (write_file "/tmp/npm-audit-Ab3dE9/package.json"
                    (Sample.text_of
                       (manifest_of First (VObj [("lodash", VStr "4.17.15")])))
                    (make_dir "/tmp/npm-audit-Ab3dE9" Sample.tmp_only))))
    as (inv & Hcmds & Hlast & Hcmd & Hcwd & _).
  - reflexivity.
  - reflexivity.
  - reflexivity.
  - vm_compute. reflexivity.
  - vm_compute. reflexivity.
  - intros _. vm_compute. eauto.
  - exists inv. repeat split; assumption.
Defined.

(** In the first variant the outcome of the install step is ignored: a
    failing npm install changes nothing in the response, the file system
    left behind or the commands run, compared with the world where it exits
    with status zero. *)
Theorem install_failure_ignored E req fs0 :
  observe (serve (V1.handler E req) fs0) =
  observe (serve (V1.handler (with_exit_code_ignored V1.install_cmd E) req) fs0).
Proof.
  destruct (serve (V1.handler E req) fs0) as [r1 s1] eqn:H1.
  destruct (serve (V1.handler (with_exit_code_ignored V1.install_cmd E) req) fs0)
    as [r2 s2] eqn:H2.
  run H1.
  all: run H2.
  all: reflexivity.
Qed.

(** ** Findings that cannot be normalised *)

(** Running the callback on a finding that is null or undefined, or whose
    element of via is null, or whose upgrade cannot be put into words: it
    throws at the first of these it meets. *)
Ltac run_bad_entry info H :=
  let steps Hfx Hname Hversion :=
    repeat first
      [ rewrite get_run by auto using truthy_not_nullish
      | rewrite Hfx
      | rewrite (interpolate_run _ _ Hname)
      | rewrite (interpolate_throws _ _ Hname)
      | rewrite (interpolate_throws _ _ Hversion)
      | progress cbv beta iota zeta delta [ret] ] in
  unfold normalize_entry, bind;
  destruct (nullish info) eqn:Hn;
  [ unfold get at 1; rewrite Hn; eauto
  | destruct H as [|H]; [done|];
    repeat first [ rewrite (get_run info) by done | progress cbv beta iota zeta ];
    fold (via_info info);
    assert (Hgo : via_info info = VNull \/
              (via_info info <> VNull /\
               truthy (property info "fixAvailable") = true /\
               (has_string_form (property (property info "fixAvailable") "name") = false \/
                has_string_form (property (property info "fixAvailable") "name") = true /\
                has_string_form (property (property info "fixAvailable") "version") = false)))
      by (destruct H as [|H]; [by left|]; unfold fix_has_text in H;
          destruct (via_info info); try (by left); right; (split; [done|]);
          (destruct (truthy (property info "fixAvailable")); [|done]);
          (split; [done|]);
          (destruct (has_string_form (property (property info "fixAvailable") "name"));
           [right|by left]);
          by split);
    clear H;
    destruct (is_object (via_info info)) eqn:Hobj;
    [ destruct Hgo as [Hvia|(Hvia & Hfx & Htext)];
      [ rewrite Hvia; cbn; eauto
      | rewrite (get_run (via_info info)) by (by apply is_object_not_null);
        destruct Htext as [Hname|[Hname Hversion]];
        [ steps Hfx Hname Hname | steps Hfx Hname Hversion ]; eauto ]
    | destruct Hgo as [Hvia|(Hvia & Hfx & Htext)];
      [ by rewrite Hvia in Hobj
      | destruct Htext as [Hname|[Hname Hversion]];
        [ steps Hfx Hname Hname | steps Hfx Hname Hversion ]; eauto ] ] ].

Lemma normalize_entry_throws name info st :
  nullish info = true \/ via_info info = VNull \/ fix_has_text info = false ->
  exists msg, normalize_entry (name, info) st = (Throw (TypeError msg), st).
Proof. intros H. run_bad_entry info H. Qed.

(** A record comes out exactly when the finding is not null or undefined,
    the element of via looked at is not null, and the upgrade, if there is
    one, can be put into words; its name is the key. *)
Lemma normalize_entry_outcome name info st :
  (nullish info = false /\ via_info info <> VNull /\ fix_has_text info = true /\
   exists record, normalize_entry (name, info) st = (Normal record, st) /\
                  property record "name" = VStr name) \/
  ((nullish info = true \/ via_info info = VNull \/ fix_has_text info = false) /\
   exists msg, normalize_entry (name, info) st = (Throw (TypeError msg), st)).
Proof.
  destruct (nullish info) eqn:Hn.
  { right. split; [by left|]. apply normalize_entry_throws. by left. }
  destruct (fix_has_text info) eqn:Hfix; cycle 1.
  { right. split; [by right; right|]. apply normalize_entry_throws. by right; right. }
  destruct (via_info info) eqn:Hvia;
    try (left; split; [done|]; split; [done|]; split; [done|]; eexists; split;
         [apply normalize_entry_run; [done|by rewrite Hvia|done]|reflexivity]).
  right. split; [by right; left|]. apply normalize_entry_throws. by right; left.
Qed.

(** Normalising one finding throws exactly when the finding is null or
    undefined, or the element of via looked at is null, or the finding has
    an upgrade whose name or version has no text (an object with a
    property of its own called toString, or a list holding one); what is
    thrown is a TypeError. *)
Theorem normalize_entry_fails_exactly_when name info st :
  ((exists e, normalize_entry (name, info) st = (Throw e, st)) <->
   (nullish info = true \/ via_info info = VNull \/ fix_has_text info = false)) /\
  (forall e st', normalize_entry (name, info) st = (Throw e, st') ->
                 exists msg, e = TypeError msg).
Proof.
  assert (Hbad : forall e st',
            normalize_entry (name, info) st = (Throw e, st') ->
            nullish info = true \/ via_info info = VNull \/ fix_has_text info = false).
  { intros e st' He.
    destruct (nullish info) eqn:Hn; [by left|].
    destruct (fix_has_text info) eqn:Hfix; [|by right; right].
    destruct (via_info info) eqn:Hvia; try (by right; left).
    all: rewrite normalize_entry_run in He; [done|done|by rewrite Hvia|done]. }
  assert (Hthrows :
            nullish info = true \/ via_info info = VNull \/ fix_has_text info = false ->
            exists msg, normalize_entry (name, info) st = (Throw (TypeError msg), st)).
  { intros H. run_bad_entry info H. }
  split; [split|].
  - intros [e He]. by apply (Hbad e st).
  - intros H. destruct (Hthrows H) as [msg ->]. eauto.
  - intros e st' He. destruct (Hthrows (Hbad e st' He)) as [msg Hmsg].
    rewrite Hmsg in He. injection He as <- _. eauto.
Qed.

Lemma mapM_cons_run {A B} (f : A -> M B) x l st :
  mapM f (x :: l) st =
    match f x st with
    | (Normal y, st') =>
        match mapM f l st' with
        | (Normal ys, st'') => (Normal (y :: ys), st'')
        | (Return r, st'') => (Return r, st'')
        | (Throw e, st'') => (Throw e, st'')
        end
    | (Return r, st') => (Return r, st')
    | (Throw e, st') => (Throw e, st')
    end.
Proof.
  cbn [mapM]. unfold bind. destruct (f x st) as [[y|r|e] st']; [|done|done].
  by destruct (mapM f l st') as [[ys|r|e] st''].
Qed.

(** The records of a list of entries carry the keys of the entries, in
    order. *)
Lemma records_follow_entries entries records st st' :
  mapM normalize_entry entries st = (Normal records, st') ->
  (fun record => property record "name") <$> records
    = (fun entry : string * value => VStr entry.1) <$> entries.
Proof.
  revert records st st'.
  induction entries as [|[name info] entries IH]; intros records st st'.
  - cbn. by intros [= <- _].
  - rewrite mapM_cons_run.
    destruct (normalize_entry_outcome name info st)
      as [(_ & _ & _ & record & -> & Hname)|(_ & msg & ->)]; [|done].
    destruct (mapM normalize_entry entries st) as [[ys|r|e] st''] eqn:Hrest; try done.
    intros [= <- _]. cbn [fmap list_fmap fst]. rewrite Hname. f_equal.
    by apply (IH ys st st'').
Qed.

(** One entry that cannot be normalised makes the whole list fail. *)
Lemma bad_entry_fails_the_list entries name info st :
  (name, info) ∈ entries ->
  nullish info = true \/ via_info info = VNull ->
  exists msg, mapM normalize_entry entries st = (Throw (TypeError msg), st).
Proof.
  intros Hin Hbad. induction entries as [|[name' info'] entries IH].
  - by apply elem_of_nil in Hin.
  - rewrite mapM_cons_run.
    destruct (normalize_entry_outcome name' info' st)
      as [(Hn & Hv & _ & record & -> & _)|(_ & msg & ->)]; [|eauto].
    apply elem_of_cons in Hin as [[= <- <-]|Hin].
    + destruct Hbad as [Hb|Hb]; [by rewrite Hb in Hn|done].
    + destruct (IH Hin) as [msg ->]. eauto.
Qed.

(** The 200 response has one record per entry of the vulnerabilities object
    of the report, named by the keys and in their order, and the metadata of
    the report. *)
Theorem one_record_per_entry auditOutput r :
  result_of (respond_with_findings auditOutput) = Return r ->
  exists records,
    r = Response 200 (VObj [("vulnerabilities", VArr records);
                            ("metadata", property auditOutput "metadata")]) /\
    (fun record => property record "name") <$> records
      = (fun entry : string * value => VStr entry.1)
          <$> Object_entries (or_else (property auditOutput "vulnerabilities") (VObj [])).
Proof.
  intros Hr.
  destruct (respond_with_findings_cases auditOutput)
    as [[e He]|(records & _ & Hrecords & He)]; rewrite He in Hr; [done|].
  injection Hr as <-. exists records. split; [done|].
  eapply (records_follow_entries _ _ (State (MkFs ∅ ∅) [])).
  rewrite records_run, Hrecords. reflexivity.
Qed.

Lemma one_record_per_entry_witness :
  exists records,
    Response 200 (VObj [("vulnerabilities", VArr [Sample.lodash_record]);
                        ("metadata", property Sample.lodash_report "metadata")])
      = Response 200 (VObj [("vulnerabilities", VArr records);
                            ("metadata", property Sample.lodash_report "metadata")]) /\
    (fun record => property record "name") <$> records = [VStr "lodash"].
Proof.
  apply (one_record_per_entry Sample.lodash_report). reflexivity.
Defined.

(** A report in which one finding is null, or has null as the element of
    via looked at, gets no partial answer: the last step throws, which the
    outer catch turns into a 500. *)
Theorem one_bad_finding_fails_the_request auditOutput name info :
  nullish auditOutput = false ->
  (name, info) ∈ Object_entries (or_else (property auditOutput "vulnerabilities") (VObj [])) ->
  nullish info = true \/ via_info info = VNull ->
  exists msg, result_of (respond_with_findings auditOutput) = Throw (TypeError msg).
Proof.
  intros Hobj Hin Hbad.
  destruct (bad_entry_fails_the_list _ name info (State (MkFs ∅ ∅) []) Hin Hbad)
    as [msg Hmsg].
  exists msg. unfold result_of, respond_with_findings, bind.
  rewrite (get_run auditOutput) by done. cbv beta iota. by rewrite Hmsg.
Qed.

Lemma one_bad_finding_fails_the_request_witness :
  exists msg,
    result_of (respond_with_findings
                 (VObj [("vulnerabilities",
                         VObj [("lodash", Sample.lodash_finding); ("debug", VNull)])]))
      = Throw (TypeError msg).
Proof.
  apply (one_bad_finding_fails_the_request _ "debug" VNull).
  - reflexivity.
  - vm_compute. apply list_elem_of_further, list_elem_of_here.
  - left. reflexivity.
Defined.

(** ** What every record has *)

Lemma or_else_truthy a s : s <> "" -> truthy (or_else a (VStr s)) = true.
Proof.
  intros Hs. unfold or_else. destruct (truthy a) eqn:Ha; [done|].
  cbn. by apply String.eqb_neq in Hs as ->.
Qed.

(** Whatever the finding, a record that comes out has its key as name, a
    version and a severity that are never missing or empty (unknown stands
    in), and a recommendation that is a text and not empty. *)
Theorem records_never_lack_version_severity_recommendation name info st record st' :
  normalize_entry (name, info) st = (Normal record, st') ->
  property record "name" = VStr name /\
  truthy (property record "version") = true /\
  truthy (property record "severity") = true /\
  exists text, property record "recommendation" = VStr text /\ text <> "".
Proof.
  intros Hrun.
  destruct (normalize_entry_outcome name info st)
    as [(Hinfo & Hvia & Hfix & _)|(_ & msg & Hthrow)]; [|congruence].
  rewrite normalize_entry_run in Hrun by done. injection Hrun as <- _.
  cbn [property lookup_prop String.eqb Ascii.eqb Bool.eqb].
  repeat split; try (by apply or_else_truthy).
  eexists. split; [reflexivity|]. by destruct (truthy _).
Qed.

Lemma records_never_lack_version_severity_recommendation_witness :
  property Sample.lodash_record "name" = VStr "lodash" /\
  truthy (property Sample.lodash_record "version") = true /\
  truthy (property Sample.lodash_record "severity") = true /\
  exists text, property Sample.lodash_record "recommendation" = VStr text /\ text <> "".
Proof.
  apply (records_never_lack_version_severity_recommendation "lodash" Sample.lodash_finding
           (State Sample.tmp_only []) _ (State Sample.tmp_only [])).
  reflexivity.
Defined.

(** ** The findings npm documents *)














(** * More on the component *)

(** ** The text of a number is never empty *)

Lemma string_app_nonempty_l (a b : string) : a <> "" -> a +:+ b <> "".
Proof. by destruct a. Qed.

Lemma string_app_nonempty_r (a b : string) : b <> "" -> a +:+ b <> "".
Proof. destruct a; [done|]. intros _. discriminate. Qed.

Lemma pretty_N_go_nonempty (x : N) s : s <> "" -> pretty_N_go x s <> "".
Proof.
  revert s. induction (N.lt_wf_0 x) as [x _ IH]; intros s Hs.
  assert (x = 0 \/ 0 < x)%N as [->|Hx] by lia.
  - by rewrite pretty_N_go_0.
  - rewrite pretty_N_go_step by done. apply IH; [|done].
    apply N.div_lt; lia.
Qed.

Lemma pretty_N_nonempty (x : N) : pretty x <> "".
Proof.
  unfold pretty, pretty_N. destruct (decide (x = 0%N)); [done|].
  rewrite pretty_N_go_step by lia. by apply pretty_N_go_nonempty.
Qed.

Lemma pretty_Z_nonempty (x : Z) : pretty x <> "".
Proof.
  destruct x; [done| |]; unfold pretty, pretty_Z.
  - apply pretty_N_nonempty.
  - by apply string_app_nonempty_l.
Qed.

Lemma num_to_string_nonempty n : num_to_string n <> "".
Proof.
  unfold num_to_string. destruct (strip_zeros _ _) as [m k].
  apply string_app_nonempty_r, string_app_nonempty_l, pretty_Z_nonempty.
Qed.

Lemma str_or_text s d : s <> "" -> Dashboard.str_or (Some s) d = s.
Proof. intros Hs. unfold Dashboard.str_or. by apply String.eqb_neq in Hs as ->. Qed.

(** ** The two exports side by side *)

(** The count the PDF summary table shows for a severity is the number the
    Markdown summary prints on its line, for every summary and without one
    (all zeros). *)
Theorem summaries_agree c label field :
  Dashboard.summary_line label c field =
    "- " +:+ label +:+ ": " +:+ Dashboard.count_text c field +:+ newline.
Proof.
  unfold Dashboard.summary_line. do 3 f_equal.
  unfold Dashboard.count_text, Dashboard.count_or_zero.
  destruct (Dashboard.summary_field c field) as [[m k]|]; [|reflexivity].
  cbn [fmap option_fmap option_map]. unfold num_truthy. cbn [mantissa].
  rewrite str_or_text by apply num_to_string_nonempty.
  destruct (Z.eqb_spec m 0) as [->|]; [|reflexivity].
  cbn [negb]. by rewrite num_to_string_zero.
Qed.

Lemma count_text_is_count c field :
  Dashboard.count_text c field = num_to_string (Dashboard.count_or_zero c field).
Proof.
  unfold Dashboard.count_text, Dashboard.count_or_zero.
  destruct (Dashboard.summary_field c field) as [[m k]|]; [|reflexivity].
  cbn [fmap option_fmap option_map]. unfold num_truthy. cbn [mantissa].
  rewrite str_or_text by apply num_to_string_nonempty.
  destruct (Z.eqb_spec m 0) as [->|]; [|reflexivity].
  cbn [negb]. by rewrite num_to_string_zero.
Qed.

(** The first table of the PDF document, under Severity and Count, holds
    the six labels in the order of the Markdown summary, each with the
    number the Markdown report prints on the line of that label. *)
Theorem summary_tables_agree c doc :
  Dashboard.generatePDFReport c = Some doc ->
  exists summary,
    head (Dashboard.tables doc) = Some summary /\
    Dashboard.thead summary = [["Severity"; "Count"]] /\
    Dashboard.tbody summary =
      [[VStr "Total"; VStr (num_to_string (Dashboard.count_or_zero c Dashboard.total))];
       [VStr "Critical";
        VStr (num_to_string (Dashboard.count_or_zero c Dashboard.critical))];
       [VStr "High"; VStr (num_to_string (Dashboard.count_or_zero c Dashboard.high))];
       [VStr "Moderate";
        VStr (num_to_string (Dashboard.count_or_zero c Dashboard.moderate))];
       [VStr "Low"; VStr (num_to_string (Dashboard.count_or_zero c Dashboard.low))];
       [VStr "Info"; VStr (num_to_string (Dashboard.count_or_zero c Dashboard.info))]].
Proof.
  unfold Dashboard.generatePDFReport.
  destruct (Dashboard.tableData c) as [rows|]; [|done].
  intros [= <-]. eexists. split; [reflexivity|]. split; [reflexivity|].
  cbn [Dashboard.tbody]. unfold Dashboard.summaryData.
  by rewrite !count_text_is_count.
Qed.

Lemma summary_tables_agree_witness :
  exists doc summary,
    Dashboard.generatePDFReport Sample.dashboard = Some doc /\
    head (Dashboard.tables doc) = Some summary /\
    Dashboard.tbody summary =
      [[VStr "Total"; VStr "2"]; [VStr "Critical"; VStr "0"]; [VStr "High"; VStr "1"];
       [VStr "Moderate"; VStr "0"]; [VStr "Low"; VStr "1"]; [VStr "Info"; VStr "0"]].
Proof.
  eexists.
  destruct (summary_tables_agree Sample.dashboard _ eq_refl) as (summary & Hhead & _ & Hbody).
  exists summary. split; [reflexivity|]. split; [exact Hhead|]. rewrite Hbody. reflexivity.
Defined.

(** For a record whose score is missing, a text, or a number other than
    zero, the Markdown row is the texts of the six cells of the PDF row
    between bars.  The PDF row holds the name, the version, the
    vulnerability, the severity and the recommendation as the values they
    are (a missing vulnerability is the value undefined there), and
    Markdown prints the text of each (the word undefined). *)
Theorem rows_agree r cells :
  match property r "cvssScore" with
  | VUndefined | VNull | VStr _ => True
  | VNum n => mantissa n <> 0%Z
  | _ => False
  end ->
  Dashboard.pdf_row r = Some cells ->
  Forall (fun cell => has_string_form cell = true) cells ->
  Dashboard.markdown_row r =
    Some ("| " +:+ String.concat " | " (to_string <$> cells) +:+ " |" +:+ newline).
Proof.
  intros Hscore Hrow Hcells.
  unfold Dashboard.pdf_row, Dashboard.toString_opt in Hrow.
  unfold Dashboard.markdown_row.
  destruct (nullish r); [done|].
  assert (Hcell : exists cell,
            or_else (property r "cvssScore") (VStr "N/A") = cell /\
            has_string_form cell = true /\
            cells = [property r "name"; property r "version"; property r "vulnerability";
                     property r "severity"; VStr (to_string cell);
                     property r "recommendation"]).
  { destruct (property r "cvssScore") as [| | |n|s| |]; try done; eexists.
    - by injection Hrow as <-.
    - by injection Hrow as <-.
    - cbn in Hrow. injection Hrow as <-. unfold or_else. cbn [truthy].
      assert (Hn : num_truthy n = true)
        by (unfold num_truthy; by apply Z.eqb_neq in Hscore as ->).
      rewrite Hn. repeat split. do 5 f_equal. unfold or_else. cbn [truthy].
      pose proof (num_to_string_nonempty n) as Hne.
      by apply String.eqb_neq in Hne as ->.
    - cbn in Hrow. injection Hrow as <-. split; [reflexivity|]. split.
      + unfold or_else. by destruct (truthy (VStr s)).
      + do 5 f_equal. unfold or_else. cbn [truthy]. by destruct (String.eqb s ""). }
  destruct Hcell as (cell & -> & Hcell & ->).
  apply Forall_cons in Hcells as [Hn Hcells].
  apply Forall_cons in Hcells as [Hv Hcells].
  apply Forall_cons in Hcells as [Hu Hcells].
  apply Forall_cons in Hcells as [Hs Hcells].
  apply Forall_cons in Hcells as [_ Hcells].
  apply Forall_cons in Hcells as [Hm _].
  rewrite !ToString_text by done.
  cbn [mbind option_bind fmap list_fmap String.concat to_string].
  by rewrite !string_app_assoc.
Qed.

Lemma rows_agree_witness :
  Dashboard.markdown_row Sample.untitled_record =
    Some ("| "
            +:+ String.concat " | "
                  (to_string <$>
                     [VStr "minimist"; VStr "<1.2.6"; VUndefined; VStr "critical";
                      VStr "9.8"; VStr "No specific recommendation"])
            +:+ " |" +:+ newline).
Proof.
  apply rows_agree; [vm_compute; discriminate|reflexivity|repeat constructor].
Defined.

(** ** Records that can be printed *)


Lemma has_string_form_or_else_eq v d :
  has_string_form (or_else v (VStr d)) = has_string_form v.
Proof.
  unfold or_else. destruct v as [| |[]|n|s| |]; cbn [truthy]; try reflexivity.
  - by destruct (num_truthy n).
  - by destruct (negb _).
Qed.

Lemma fold_left_none {A} (f : A -> option string) l :
  fold_left (fun acc x => acc ← acc; row ← f x; Some (acc +:+ row)) l None = None.
Proof. by induction l. Qed.

Lemma fold_left_is_Some {A} (f : A -> option string) l init :
  is_Some (fold_left (fun acc x => acc ← acc; row ← f x; Some (acc +:+ row)) l (Some init))
  <-> Forall (fun x => is_Some (f x)) l.
Proof.
  revert init. induction l as [|x l IH]; intros init; cbn [fold_left].
  - split; [by constructor|eauto].
  - rewrite Forall_cons. cbn [mbind option_bind].
    destruct (f x) as [row|]; cbn [mbind option_bind].
    + rewrite IH. split; [by split; eauto|by intros []].
    + rewrite fold_left_none. split; [by intros []|by intros [[] _]].
Qed.

(** Each export gives a result exactly when it can print every record:
    the Markdown report when every record is there and has a text in each
    of its six cells, the PDF document when every record is there and its
    score has a text.  One record that falls short makes the export throw,
    and nothing is copied or saved. *)
Theorem exports_need_printable_records c :
  (is_Some (Dashboard.generateMarkdownReport c) <->
   Forall (fun result => Dashboard.printable result = true)
     (default [] (Dashboard.auditResults c))) /\
  (is_Some (Dashboard.generatePDFReport c) <->
   Forall (fun result =>
             nullish result = false /\
             has_string_form (property result "cvssScore") = true)
     (default [] (Dashboard.auditResults c))).
Proof.
  split.
  - unfold Dashboard.generateMarkdownReport.
    destruct (Dashboard.auditResults c) as [results|]; cbn [default from_option id];
      [|split; [by constructor|eauto]].
    rewrite fold_left_is_Some. apply Forall_proper; [|done].
    intros r. unfold Dashboard.markdown_row, Dashboard.printable. cbn [forallb].
    destruct (nullish r); [split; [by intros [? [=]]|done]|]. cbn [negb andb].
    rewrite <- (has_string_form_or_else_eq (property r "cvssScore") "N/A").
    unfold ToString.
    repeat match goal with
           | |- context [if has_string_form ?x then _ else _] =>
               destruct (has_string_form x); cbn [mbind option_bind andb];
               [|split; [by intros [? [=]]|done]]
           end.
    split; [done|eauto].
  - unfold Dashboard.generatePDFReport, Dashboard.tableData.
    destruct (Dashboard.auditResults c) as [results|]; cbn [default from_option id];
      [|cbn; split; [by constructor|eauto]].
    transitivity (is_Some (list.mapM Dashboard.pdf_row results)).
    { destruct (list.mapM Dashboard.pdf_row results); cbn; split; eauto;
        by intros [? [=]]. }
    rewrite mapM_is_Some. apply Forall_proper; [|done].
    intros r. unfold Dashboard.pdf_row, Dashboard.toString_opt, ToString. cbn [compose].
    destruct (nullish r); [split; [by intros [? [=]]|by intros [[=] _]]|].
    destruct (property r "cvssScore") as [| | | | |items|props];
      cbn [nullish has_string_form fmap option_fmap option_map mbind option_bind];
      try (split; [done|eauto]).
    + destruct (forallb has_string_form items); cbn; split; eauto; try done;
        by intros [? [=]].
    + destruct (negb _); cbn; split; eauto; try done; by intros [? [=]].
Qed.

(** ** performAudit *)

(** performAudit never throws. It sets the loading flag, clears the error
    and at the end always clears the loading flag. In between it either
    gets an answer and publishes the results and then the summary, or it
    sets one error message, after at most one request, and publishes
    nothing: the results and the summary of an earlier audit stay. *)
Theorem performAudit_outcomes B content :
  exists calls,
    Client.performAudit B content = (calls, inr tt) /\
    ((exists payload results summary,
        calls = [Client.SetIsLoading true; Client.SetError None;
                 Client.Fetch "/api/npm-audit" "POST" payload;
                 Client.SetAuditResults results; Client.SetAuditSummary summary;
                 Client.SetIsLoading false]) \/
     (exists payload msg,
        calls = [Client.SetIsLoading true; Client.SetError None;
                 Client.Fetch "/api/npm-audit" "POST" payload;
                 banner msg; Client.SetIsLoading false]) \/
     (exists msg,
        calls = [Client.SetIsLoading true; Client.SetError None;
                 banner msg; Client.SetIsLoading false])).
Proof.
  unfold Client.performAudit, Client.do_fetch, Client.get, Client.destructure.
  destruct (Client.JSON_parse B content) as [e|parsed]; cbn; [eauto 10|].
  destruct (nullish parsed); cbn; [eauto 10|].
  destruct (Client.fetch B _ _ _) as [e|response]; cbn; [eauto 10|].
  destruct (Client.response_json response) as [e|data]; cbn; [eauto 10|].
  destruct (Client.ok response); cbn.
  - destruct (nullish data); cbn; eauto 10.
  - destruct (nullish data); cbn; eauto 10.
Qed.

(** A file whose text is not JSON, or is the JSON null, is never sent: the
    only thing that happens is the error message, made from the message of
    the error thrown. *)
Theorem unreadable_file_sends_nothing B content :
  (forall parsed, Client.JSON_parse B content = inr parsed -> nullish parsed = true) ->
  exists msg,
    Client.performAudit B content =
      ([Client.SetIsLoading true; Client.SetError None; banner msg;
        Client.SetIsLoading false], inr tt) /\
    forall e, Client.JSON_parse B content = inl e -> msg = exn_message e.
Proof.
  intros Hbad.
  unfold Client.performAudit, Client.do_fetch, Client.get, Client.destructure.
  destruct (Client.JSON_parse B content) as [e|parsed]; cbn.
  - eexists. split; [reflexivity|]. by intros ? [= <-].
  - rewrite (Hbad parsed eq_refl). cbn. eexists. split; [reflexivity|]. by intros.
Qed.

Lemma unreadable_file_sends_nothing_witness :
  exists msg,
    Client.performAudit (Sample.browser (inl (TypeError "Failed to fetch"))) "name: lodash" =
      ([Client.SetIsLoading true; Client.SetError None; banner msg;
        Client.SetIsLoading false], inr tt) /\
    forall e,
      Client.JSON_parse (Sample.browser (inl (TypeError "Failed to fetch"))) "name: lodash"
        = inl e ->
      msg = exn_message e.
Proof. apply unreadable_file_sends_nothing. intros parsed. vm_compute. discriminate. Defined.

(** What performAudit does once the file is read and the endpoint has
    answered with a JSON body. *)
Lemma performAudit_answered B content parsed response data :
  Client.JSON_parse B content = inr parsed ->
  nullish parsed = false ->
  Client.fetch B "/api/npm-audit" "POST"
    (default "" (JSON_stringify (VObj [("dependencies", property parsed "dependencies")]) 0))
    = inr response ->
  Client.response_json response = inr data ->
  nullish data = false ->
  Client.performAudit B content =
    (([Client.SetIsLoading true; Client.SetError None;
      Client.Fetch "/api/npm-audit" "POST"
        (default "" (JSON_stringify (VObj [("dependencies", property parsed "dependencies")]) 0))]
     ++ (if Client.ok response
         then [Client.SetAuditResults (or_else (property data "vulnerabilities") (VArr []));
               Client.SetAuditSummary
                 (or_else (property_opt (property data "metadata") "vulnerabilities") VNull)]
         else [banner (to_string
                         (or_else (property data "error")
                            (VStr ("HTTP error! status: "
                                     +:+ pretty (Client.http_status response)))))])
     ++ [Client.SetIsLoading false])%list, inr tt).
Proof.
  intros Hparse Hparsed Hfetch Hjson Hdata.
  unfold Client.performAudit, Client.do_fetch, Client.get, Client.destructure.
  rewrite Hparse. cbn -[JSON_stringify]. rewrite Hparsed. cbn -[JSON_stringify].
  rewrite Hfetch. cbn -[JSON_stringify]. rewrite Hjson. cbn -[JSON_stringify].
  destruct (Client.ok response); cbn -[JSON_stringify]; by rewrite Hdata.
Qed.



(** When the endpoint answers with a status from 200 to 299 and a JSON
    body, the results are the vulnerabilities of the body, or an empty list,
    and the summary is [metadata.vulnerabilities] of the body, or null. *)
Theorem successful_audit_published B content parsed response data :
  Client.JSON_parse B content = inr parsed ->
  nullish parsed = false ->
  Client.fetch B "/api/npm-audit" "POST"
    (default "" (JSON_stringify (VObj [("dependencies", property parsed "dependencies")]) 0))
    = inr response ->
  Client.ok response = true ->
  Client.response_json response = inr data ->
  nullish data = false ->
  Client.performAudit B content =
    ([Client.SetIsLoading true; Client.SetError None;
      Client.Fetch "/api/npm-audit" "POST"
        (default "" (JSON_stringify (VObj [("dependencies", property parsed "dependencies")]) 0));
      Client.SetAuditResults (or_else (property data "vulnerabilities") (VArr []));
      Client.SetAuditSummary
        (or_else (property_opt (property data "metadata") "vulnerabilities") VNull);
      Client.SetIsLoading false], inr tt).
Proof.
  intros Hparse Hparsed Hfetch Hok Hjson Hdata.
  rewrite (performAudit_answered B content parsed response data) by done.
  by rewrite Hok.
Qed.

Lemma successful_audit_published_witness :
  Client.performAudit (Sample.browser (inr Sample.lodash_answer)) Sample.manifest_text =
    ([Client.SetIsLoading true; Client.SetError None;
      Client.Fetch "/api/npm-audit" "POST"
        (default "" (JSON_stringify Sample.manifest 0));
      Client.SetAuditResults (VArr [Sample.lodash_record]);
      Client.SetAuditSummary (Sample.counts 0 0 0 1 0 1);
      Client.SetIsLoading false], inr tt).
Proof.
  apply (successful_audit_published (Sample.browser (inr Sample.lodash_answer))
           Sample.manifest_text Sample.manifest Sample.lodash_answer
           (VObj [("vulnerabilities", VArr [Sample.lodash_record]);
                  ("metadata", property Sample.lodash_report "metadata")]));
    reflexivity.
Defined.

(** End to end with the first variant: dropping a package.json without a
    dependencies field sends the body {}, gets 400 back, and shows the
    error text of the endpoint. *)
Theorem upload_without_dependencies E fs0 content parsed :
  JSON_parse E content = inr parsed ->
  nullish parsed = false ->
  property parsed "dependencies" = VUndefined ->
  JSON_parse E "{}" = inr (VObj []) ->
  JSON_parse E (Sample.compact Sample.invalid_dependencies)
    = inr Sample.invalid_dependencies ->
  Client.performAudit (served_by First E fs0) content =
    ([Client.SetIsLoading true; Client.SetError None;
      Client.Fetch "/api/npm-audit" "POST" "{}";
      banner "Invalid dependencies format";
      Client.SetIsLoading false], inr tt).
Proof.
  intros Hparse Hparsed Hdeps Hempty Herror.
  rewrite (performAudit_answered (served_by First E fs0) content parsed
             {| Client.ok := false; Client.http_status := 400;
                Client.response_json := inr Sample.invalid_dependencies |}
             Sample.invalid_dependencies);
    rewrite ?Hdeps; try done.
  change (default "" (JSON_stringify (VObj [("dependencies", VUndefined)]) 0)) with "{}".
  unfold served_by. cbn [Client.fetch]. rewrite Hempty.
  change (serve (handler_of First E (Request "POST" (VObj []))) fs0).1
    with (Some (Response 400 Sample.invalid_dependencies)).
  cbn [status json]. fold (Sample.compact Sample.invalid_dependencies).
  by rewrite Herror.
Qed.

Lemma upload_without_dependencies_witness :
  Client.performAudit (served_by First Sample.clean Sample.tmp_only)
    (Sample.text_of Sample.bare_package) =
    ([Client.SetIsLoading true; Client.SetError None;
      Client.Fetch "/api/npm-audit" "POST" "{}";
      banner "Invalid dependencies format";
      Client.SetIsLoading false], inr tt).
Proof.
  apply (upload_without_dependencies Sample.clean Sample.tmp_only _ Sample.bare_package);
    reflexivity.
Defined.
